(** * GP appointment-system suppliers: a shallow embedding of
      [bin/helpers.py] and [bin/download_gpad.py].

    Python values are rendered as follows.
    - [str] is [string]; a character is a code point in 0..255.
    - a [list] is a [list]; a tuple is a pair.
    - a [dict] is an association list kept in insertion order.
    - a call that may raise returns a [result]; exceptions are values of [exn].
    - the file system, the HTTP client, the HTML parser and the csv module are
      collaborators: what they hand to the program is an argument. *)

From Stdlib Require Import String Ascii List ZArith Lia Bool DecimalString.
Import ListNotations.

Open Scope list_scope.
Open Scope string_scope.

(** ** Python built-ins used by the program *)
Module Py.

Inductive exn : Type :=
| ValueError
| KeyError
| IndexError
| AttributeError
| HTTPError
| OSError
| Exception (msg : string).

Inductive result (A : Type) : Type :=
| Ok (a : A)
| Raise (e : exn).
Arguments Ok {A} a.
Arguments Raise {A} e.

Definition bind {A B : Type} (r : result A) (k : A -> result B) : result B :=
  match r with
  | Ok a => k a
  | Raise e => Raise e
  end.

(** [s.split(sep)] for a one-character separator: never an empty list. *)
Fixpoint split (sep : ascii) (s : string) : list string :=
  match s with
  | EmptyString => [EmptyString]
  | String c s' =>
      if Ascii.eqb c sep then EmptyString :: split sep s'
      else match split sep s' with
           | t :: ts => String c t :: ts
           | [] => [String c EmptyString]
           end
  end.

(** [sep.join(parts)] *)
Fixpoint join (sep : string) (parts : list string) : string :=
  match parts with
  | [] => EmptyString
  | [t] => t
  | t :: rest => t ++ sep ++ join sep rest
  end.

(** [l[i]] for [i >= 0] *)
Definition getitem {A : Type} (l : list A) (i : nat) : result A :=
  match nth_error l i with
  | Some x => Ok x
  | None => Raise IndexError
  end.

(** [s[i:j]] for [0 <= i <= j] *)
Definition slice (s : string) (i j : nat) : string := substring i (j - i) s.

(** [s.startswith(p)] and [s.endswith(p)] *)
Definition startswith (s p : string) : bool := prefix p s.

Definition endswith (s p : string) : bool :=
  (String.length p <=? String.length s)%nat
  && String.eqb
       (substring (String.length s - String.length p) (String.length p) s) p.

(** [needle in hay] on strings *)
Fixpoint contains (hay needle : string) : bool :=
  prefix needle hay
  || match hay with
     | EmptyString => false
     | String _ hay' => contains hay' needle
     end.

(** Case mapping of the ASCII letters; other characters are left alone. *)
Definition is_upper (c : ascii) : bool :=
  (65 <=? nat_of_ascii c)%nat && (nat_of_ascii c <=? 90)%nat.
Definition is_lower (c : ascii) : bool :=
  (97 <=? nat_of_ascii c)%nat && (nat_of_ascii c <=? 122)%nat.
Definition to_upper (c : ascii) : ascii :=
  if is_lower c then ascii_of_nat (nat_of_ascii c - 32) else c.
Definition to_lower (c : ascii) : ascii :=
  if is_upper c then ascii_of_nat (nat_of_ascii c + 32) else c.

Fixpoint lower (s : string) : string :=
  match s with
  | EmptyString => EmptyString
  | String c s' => String (to_lower c) (lower s')
  end.

(** [s.capitalize()] *)
Definition capitalize (s : string) : string :=
  match s with
  | EmptyString => EmptyString
  | String c s' => String (to_upper c) (lower s')
  end.

(** White space as [int()] sees it among the code points below 256:
    TAB, LF, VT, FF, CR, SPACE, NEL and NBSP. *)
Definition is_space (c : ascii) : bool :=
  let n := nat_of_ascii c in
  ((9 <=? n) && (n <=? 13) || (n =? 32) || (n =? 133) || (n =? 160))%nat.

Fixpoint lstrip (s : string) : string :=
  match s with
  | EmptyString => EmptyString
  | String c s' => if is_space c then lstrip s' else s
  end.

Fixpoint rstrip (s : string) : string :=
  match s with
  | EmptyString => EmptyString
  | String c s' =>
      match rstrip s' with
      | EmptyString => if is_space c then EmptyString else String c EmptyString
      | r => String c r
      end
  end.

Definition digit_value (c : ascii) : option Z :=
  let n := nat_of_ascii c in
  if ((48 <=? n) && (n <=? 57))%nat then Some (Z.of_nat (n - 48)) else None.

(** Decimal digits, with single underscores allowed between two digits. *)
Fixpoint int_digits (s : string) (acc : Z) (after_digit : bool) : option Z :=
  match s with
  | EmptyString => if after_digit then Some acc else None
  | String c s' =>
      match digit_value c with
      | Some d => int_digits s' (10 * acc + d)%Z true
      | None =>
          if Ascii.eqb c "_" && after_digit then int_digits s' acc false
          else None
      end
  end.

(** [int(s)] in base ten: surrounding white space, an optional sign, digits. *)
Definition int (s : string) : result Z :=
  let body := rstrip (lstrip s) in
  let parsed :=
    match body with
    | String "+" digits => int_digits digits 0%Z false
    | String "-" digits => option_map Z.opp (int_digits digits 0%Z false)
    | _ => int_digits body 0%Z false
    end in
  match parsed with
  | Some n => Ok n
  | None => Raise ValueError
  end.

(** [requests.utils.iter_slices(s, n)] for [n > 0]: consecutive pieces of at
    most [n] characters.  The fuel is the length of [s], one unit a piece. *)
Fixpoint iter_slices_from (fuel : nat) (s : string) (n : nat) : list string :=
  match fuel with
  | O => []
  | S fuel' =>
      if (String.length s =? 0)%nat then []
      else substring 0 n s
             :: iter_slices_from fuel' (substring n (String.length s - n) s) n
  end.

Definition iter_slices (s : string) (n : nat) : list string :=
  iter_slices_from (String.length s) s n.

(** [str(n)] for a natural number *)
Definition str_of_nat (n : nat) : string :=
  NilZero.string_of_uint (Nat.to_uint n).

(** A [dict]: keys in insertion order, each key at most once. *)
Section Dict.
Context {K V : Type} (eqb : K -> K -> bool).

Definition dict : Type := list (K * V).

Fixpoint dict_get (d : dict) (k : K) : option V :=
  match d with
  | [] => None
  | (k', v) :: d' => if eqb k k' then Some v else dict_get d' k
  end.

(** [k in d] *)
Definition dict_mem (d : dict) (k : K) : bool :=
  match dict_get d k with Some _ => true | None => false end.

(** [d[k]] *)
Definition dict_getitem (d : dict) (k : K) : result V :=
  match dict_get d k with
  | Some v => Ok v
  | None => Raise KeyError
  end.

(** [d[k] = v]: a present key keeps its place, a new key goes last. *)
Fixpoint dict_set (d : dict) (k : K) (v : V) : dict :=
  match d with
  | [] => [(k, v)]
  | (k', v') :: d' =>
      if eqb k k' then (k', v) :: d' else (k', v') :: dict_set d' k v
  end.

(** [del d[k]] for a key that is present *)
Fixpoint dict_remove (d : dict) (k : K) : dict :=
  match d with
  | [] => []
  | (k', v') :: d' =>
      if eqb k k' then d' else (k', v') :: dict_remove d' k
  end.

(** [d.keys()] and [d.items()], in insertion order *)
Definition dict_keys (d : dict) : list K := map fst d.
Definition dict_items (d : dict) : list (K * V) := d.
End Dict.

End Py.

Import Py.

Declare Scope py_scope.
Delimit Scope py_scope with py.
Notation "x <- c1 ;; c2" := (bind c1 (fun x => c2))
  (at level 61, c1 at next level, right associativity) : py_scope.
Notation "' pat <- c1 ;; c2" := (bind c1 (fun x => match x with pat => c2 end))
  (at level 61, pat pattern, c1 at next level, right associativity) : py_scope.
Open Scope py_scope.

(** ** bin/helpers.py *)
Module helpers.

Definition month_table : dict (K := Z) (V := string) :=
  [ (1, "january"); (2, "february"); (3, "march"); (4, "april");
    (5, "may"); (6, "june"); (7, "july"); (8, "august");
    (9, "september"); (10, "october"); (11, "november"); (12, "december") ]%Z.

Definition month_to_name (month : string) : result string :=
  month <- Py.int month ;;
  dict_getitem Z.eqb month_table month.

Definition get_month_and_year_from_iso_month (iso_month : string)
  : result (string * string) :=
  match split "-" iso_month with
  | [year; month] =>
      month <- month_to_name month ;;
      Ok (month, year)
  | _ => Raise ValueError
  end.

Section Listing.
(** [os.listdir] *)
Variable os_listdir : string -> result (list string).

(** [os.path.join(a, b)] on POSIX *)
Definition os_path_join (a b : string) : string :=
  if startswith b "/" then b
  else if String.eqb a "" || endswith a "/" then a ++ b
  else a ++ "/" ++ b.

Definition get_data_file_paths (unzip_dir iso_month : string)
  : result (list string) :=
  '(month, year) <- get_month_and_year_from_iso_month iso_month ;;
  let abbreviated_month := capitalize (slice month 0 3) in
  let abbreviated_year := slice year 2 4 in
  let search_string := abbreviated_month ++ "_" ++ abbreviated_year ++ ".csv" in
  files <- os_listdir unzip_dir ;;
  Ok (map (os_path_join unzip_dir)
          (filter (fun f => endswith f search_string) files)).
End Listing.

Definition get_main_system_from_value (value : string) : result string :=
  let systems := split "/" value in
  if (List.length systems =? 1)%nat then getitem systems 0
  else
    s0 <- getitem systems 0 ;;
    if String.eqb s0 "EVERGREENLIFE" then getitem systems 1
    else
      s1 <- getitem systems 1 ;;
      if String.eqb s1 "EVERGREENLIFE" then getitem systems 0
      else getitem systems 0.

End helpers.

(** ** bin/download_gpad.py *)
Module download_gpad.

Import helpers.

Inductive level : Type := INFO | ERROR.

(** What [requests.get] returns: the status and the body, read in full. *)
Record response : Type := mkResponse {
  status_code : Z;
  content : string
}.

(** A [div.nhsd-m-download-card] element as the program looks at it:
    [find_p] is the text of its first [p] ([None] when it has no [p]);
    [find_a] is the [href] of its first [a] ([None] when it has no [a],
    [Some None] when the [a] has no [href], which [get] reports as [None]). *)
Record card : Type := mkCard {
  find_p : option string;
  find_a : option (option string)
}.

Definition BASE_URL : string :=
  "https://digital.nhs.uk/data-and-information/publications/statistical/appointments-in-general-practice".
Definition OUTPUT_FILE : string := "data/gp_suppliers.csv".
Definition CHUNK_SIZE : nat := Z.to_nat 8192.

(** *** process_data_file: the body of the loop over the rows *)

Definition aggregate : Type :=
  (dict (K := string) (V := string * string)
   * dict (K := string) (V := string))%type.

Definition process_row (st : aggregate) (row : list string) : result aggregate :=
  let '(data, gp_code_to_name) := st in
  gp_code <- getitem row 1 ;;
  gp_name <- getitem row 2 ;;
  appointments_systems <- getitem row 3 ;;
  main_system <- get_main_system_from_value appointments_systems ;;
  let data :=
    if negb (dict_mem String.eqb data gp_code)
    then dict_set String.eqb data gp_code (appointments_systems, main_system)
    else data in
  let gp_code_to_name :=
    if negb (dict_mem String.eqb gp_code_to_name gp_code)
    then dict_set String.eqb gp_code_to_name gp_code gp_name
    else gp_code_to_name in
  Ok (data, gp_code_to_name).

(** [for index, row in enumerate(reader)], from [index] on *)
Fixpoint process_rows (index : nat) (rows : list (list string)) (st : aggregate)
  : result aggregate :=
  match rows with
  | [] => Ok st
  | row :: later =>
      if (index =? 0)%nat then process_rows (S index) later st
      else
        st' <- process_row st row ;;
        process_rows (S index) later st'
  end.

Definition HEADER : list string :=
  ["GP Code"; "GP Name"; "Appointment Systems"; "Main System"].

Section Program.

(** Directories, permissions, the network: the part of the machine that the
    program reaches only through library calls. *)
Variable machine : Type.

Record world : Type := mkWorld {
  files : dict (K := string) (V := string);
  rest : machine;
  log : list (level * string)
}.

(** A statement: it runs in a world, returns or raises, and leaves a world. *)
Definition prog (A : Type) : Type := world -> result A * world.

Definition ret {A : Type} (a : A) : prog A := fun w => (Ok a, w).
Definition raise {A : Type} (e : exn) : prog A := fun w => (Raise e, w).
Definition lift {A : Type} (r : result A) : prog A := fun w => (r, w).

Definition pbind {A B : Type} (c : prog A) (k : A -> prog B) : prog B :=
  fun w =>
    match c w with
    | (Ok a, w') => k a w'
    | (Raise e, w') => (Raise e, w')
    end.

(** [try: c except Exception as e: handler e] *)
Definition try_except {A : Type} (c : prog A) (handler : exn -> prog A)
  : prog A :=
  fun w =>
    match c w with
    | (Ok a, w') => (Ok a, w')
    | (Raise e, w') => handler e w'
    end.

Local Notation "x <- c1 ;; c2" := (pbind c1 (fun x => c2))
  (at level 61, c1 at next level, right associativity).
Local Notation "c1 ;; c2" := (pbind c1 (fun _ => c2))
  (at level 61, right associativity).

(** *** Library calls *)

(** [str(e)] of an exception raised by Python or a library *)
Variable builtin_message : exn -> string.
(** [requests.get(url)]; the program may pass [None] for the link *)
Variable requests_get : option string -> prog response.
(** [BeautifulSoup(html, "html.parser").select("div.nhsd-m-download-card")] *)
Variable select_download_cards : string -> list card.
(** whether [open(path, "w")] or [open(path, "wb")] gets the file *)
Variable may_create : string -> world -> bool.
(** [os.path.exists], [os.makedirs], [ZipFile(zip).extractall(dir)],
    [shutil.rmtree] *)
Variable os_path_exists : string -> world -> bool.
Variable os_makedirs : string -> prog unit.
Variable zip_extractall : string -> string -> prog unit.
Variable shutil_rmtree : string -> prog unit.
(** [csv.reader] over the text of a file, and the line [writerow] writes *)
Variable csv_reader : string -> list (list string).
Variable csv_row : list string -> string.
(** [get_data_file_path], which [main] imports from [helpers] and calls with
    the month; [helpers.py] does not define it, so it is taken as given. *)
Variable get_data_file_path : string -> prog string.

Definition str (e : exn) : string :=
  match e with
  | Exception msg => msg
  | _ => builtin_message e
  end.

Definition set_files (w : world) (fs : dict) : world :=
  mkWorld fs (rest w) (log w).

Definition logger (lvl : level) (msg : string) : prog unit :=
  fun w => (Ok tt, mkWorld (files w) (rest w) (log w ++ [(lvl, msg)])%list).
Definition logger_info := logger INFO.
Definition logger_error := logger ERROR.

(** [open(path, "w")]: the file is created or emptied *)
Definition open_w (path : string) : prog unit :=
  fun w =>
    if may_create path w
    then (Ok tt, set_files w (dict_set String.eqb (files w) path ""))
    else (Raise OSError, w).

(** [f.write(data)] on the file opened at [path] *)
Definition file_write (path data : string) : prog unit :=
  fun w =>
    let old := match dict_get String.eqb (files w) path with
               | Some s => s
               | None => ""
               end in
    (Ok tt, set_files w (dict_set String.eqb (files w) path (old ++ data))).

(** [open(path, "r")] and reading the text *)
Definition open_r (path : string) : prog string :=
  fun w =>
    match dict_get String.eqb (files w) path with
    | Some s => (Ok s, w)
    | None => (Raise OSError, w)
    end.

(** [Path(path).unlink()] *)
Definition path_unlink (path : string) : prog unit :=
  fun w =>
    if dict_mem String.eqb (files w) path
    then (Ok tt, set_files w (dict_remove String.eqb (files w) path))
    else (Raise OSError, w).

(** [response.raise_for_status()] *)
Definition raise_for_status (r : response) : prog unit :=
  if ((400 <=? status_code r) && (status_code r <? 600))%Z
  then raise HTTPError else ret tt.

(** [response.iter_content(chunk_size)] of a body already read *)
Definition iter_content (r : response) (chunk_size : nat) : list string :=
  iter_slices (content r) chunk_size.

(** *** get_download_link_from_response *)

(** The [for] loop: [Ok (Some link)] when it returns from inside,
    [Ok None] when it runs to its end. *)
Fixpoint scan_downloads (downloads : list card)
  : result (option (option string)) :=
  match downloads with
  | [] => Ok None
  | download :: later =>
      match find_p download with
      | None => Raise AttributeError
      | Some download_title =>
          if contains download_title "Annex 1"
             && contains download_title "CSV"
          then match find_a download with
               | None => Raise AttributeError
               | Some href => Ok (Some href)
               end
          else scan_downloads later
      end
  end.

Definition get_download_link_from_response (r : response)
  : result (option string) :=
  let downloads := select_download_cards (content r) in
  match scan_downloads downloads with
  | Raise e => Raise e
  | Ok (Some href) => Ok href
  | Ok None =>
      if (List.length downloads =? 0)%nat
      then Raise (Exception "No downloads found.")
      else Raise (Exception
             ("Found " ++ str_of_nat (List.length downloads)
              ++ " downloads. No Annex 1 CSV downloads found."))
  end.

(** *** download_gpad_zip_file *)

Fixpoint write_chunks (path : string) (chunks : list string) : prog unit :=
  match chunks with
  | [] => ret tt
  | chunk :: later => file_write path chunk ;; write_chunks path later
  end.

Definition download_gpad_zip_file
  (iso_month : string) (zip_file_path : option string) : prog unit :=
  my <- lift (get_month_and_year_from_iso_month iso_month) ;;
  let '(month, year) := my in
  let url := BASE_URL ++ "/" ++ month ++ "-" ++ year in
  download_link <-
    match zip_file_path with
    | None =>
        logger_info ("Finding download link for " ++ iso_month
                     ++ " from " ++ url) ;;
        response <- requests_get (Some url) ;;
        raise_for_status response ;;
        match get_download_link_from_response response with
        | Ok link => ret link
        | Raise e =>
            raise (Exception ("Error getting download link: " ++ str e))
        end
    | Some zip_file_path =>
        logger_info
          ("Skipping finding download link and using provided zip file path: "
           ++ zip_file_path) ;;
        ret (Some zip_file_path)
    end ;;
  logger_info ("Downloading zip file from "
               ++ match download_link with Some l => l | None => "None" end) ;;
  response <- requests_get download_link ;;
  raise_for_status response ;;
  let f := "tmp/" ++ iso_month ++ ".zip" in
  open_w f ;;
  write_chunks f (iter_content response CHUNK_SIZE) ;;
  file_write f (content response) ;;
  logger_info ("Downloaded zip file to tmp/" ++ iso_month ++ ".zip").

(** *** unzip_gpad_zip_file *)

Definition unzip_gpad_zip_file (month : string) : prog unit :=
  let unzip_dir := "tmp/" ++ month in
  (fun w => if negb (os_path_exists unzip_dir w)
            then os_makedirs unzip_dir w else ret tt w) ;;
  zip_extractall ("tmp/" ++ month ++ ".zip") unzip_dir ;;
  logger_info ("Unzipped zip file to " ++ unzip_dir).

(** *** process_data_file *)

Definition process_data_file (input_file_path : string) : prog aggregate :=
  logger_info ("Processing data file: " ++ input_file_path) ;;
  file <- open_r input_file_path ;;
  lift (process_rows 0 (csv_reader file) ([], [])).

(** *** write_output_file *)

Fixpoint write_items (items : list (string * (string * string)))
  (gp_code_to_name : dict (K := string) (V := string)) : prog unit :=
  match items with
  | [] => ret tt
  | (gp_code, (appointment_systems, main_system)) :: later =>
      gp_name <- lift (dict_getitem String.eqb gp_code_to_name gp_code) ;;
      file_write OUTPUT_FILE
        (csv_row [gp_code; gp_name; appointment_systems; main_system]) ;;
      write_items later gp_code_to_name
  end.

Definition write_output_file
  (data : dict (K := string) (V := string * string))
  (gp_code_to_name : dict (K := string) (V := string)) : prog unit :=
  open_w OUTPUT_FILE ;;
  file_write OUTPUT_FILE (csv_row HEADER) ;;
  write_items (dict_items data) gp_code_to_name ;;
  logger_info ("Written output file: " ++ OUTPUT_FILE).

(** *** remove_tmp_files *)

Definition remove_tmp_files (month : string) : prog unit :=
  let zip_file_path := "tmp/" ++ month ++ ".zip" in
  path_unlink zip_file_path ;;
  let unzip_dir := "tmp/" ++ month in
  shutil_rmtree unzip_dir ;;
  logger_info ("Removed temporary files for " ++ month).

(** *** main *)

(** [except Exception as e: logger.error(f"{what}: {e}"); raise e] *)
Definition log_and_reraise {A : Type} (what : string) (e : exn) : prog A :=
  logger_error (what ++ ": " ++ str e) ;; raise e.

Definition main (month : string) (zip_file : option string) : prog unit :=
  try_except (download_gpad_zip_file month zip_file)
    (log_and_reraise "Error downloading zip file") ;;
  try_except (unzip_gpad_zip_file month)
    (log_and_reraise "Error unzipping zip file") ;;
  input <- get_data_file_path month ;;
  r <- try_except (process_data_file input)
         (log_and_reraise "Error processing data file") ;;
  let '(data, gp_code_to_name) := r in
  try_except (write_output_file data gp_code_to_name)
    (log_and_reraise "Error writing output file") ;;
  try_except (remove_tmp_files month)
    (log_and_reraise "Error removing temporary files") ;;
  logger_info ("Completed processing data for " ++ month).

End Program.

(** *** The command line: the month when none is given *)

(** [dt - relativedelta(months=1)] on the year and month of [dt]; the day is
    clipped and plays no part below.  Year 0 is out of range. *)
Definition minus_one_month (year month : nat) : result (nat * nat) :=
  let month' := (Z.of_nat month - 1)%Z in
  let '(year', month') :=
    if (12 <? month')%Z then (Z.of_nat year + 1, month' - 12)%Z
    else if (month' <? 1)%Z then (Z.of_nat year - 1, month' + 12)%Z
    else (Z.of_nat year, month') in
  if (year' <? 1)%Z then Raise ValueError
  else Ok (Z.to_nat year', Z.to_nat month').

(** [dt.strftime("%Y-%m")]: the year in decimal, the month on two digits *)
Definition strftime_Y_m (year month : nat) : string :=
  str_of_nat year ++ "-"
  ++ (if (month <? 10)%nat then "0" ++ str_of_nat month else str_of_nat month).

(** [(datetime.now() - relativedelta(months=1)).strftime("%Y-%m")], with the
    year and month of [datetime.now()] *)
Definition default_month (now_year now_month : nat) : result string :=
  '(year, month) <- minus_one_month now_year now_month ;;
  Ok (strftime_Y_m year month).

Arguments mkWorld {machine} files rest log.
Arguments files {machine} w.
Arguments rest {machine} w.
Arguments log {machine} w.
Arguments ret {machine A} a w.
Arguments raise {machine A} e w.
Arguments lift {machine A} r w.
Arguments pbind {machine A B} c k w.
Arguments try_except {machine A} c handler w.
Arguments set_files {machine} w fs.
Arguments logger {machine} lvl msg w.
Arguments logger_info {machine} msg w.
Arguments logger_error {machine} msg w.
Arguments open_w {machine} may_create path w.
Arguments file_write {machine} path data w.
Arguments open_r {machine} path w.
Arguments path_unlink {machine} path w.
Arguments raise_for_status {machine} r w.
Arguments write_chunks {machine} path chunks w.
Arguments download_gpad_zip_file {machine} builtin_message requests_get
  select_download_cards may_create iso_month zip_file_path w.
Arguments unzip_gpad_zip_file {machine} os_path_exists os_makedirs
  zip_extractall month w.
Arguments process_data_file {machine} csv_reader input_file_path w.
Arguments write_items {machine} csv_row items gp_code_to_name w.
Arguments write_output_file {machine} may_create csv_row data gp_code_to_name w.
Arguments remove_tmp_files {machine} shutil_rmtree month w.
Arguments log_and_reraise {machine} builtin_message {A} what e w.
Arguments main {machine} builtin_message requests_get select_download_cards
  may_create os_path_exists os_makedirs zip_extractall shutil_rmtree
  csv_reader csv_row get_data_file_path month zip_file w.

End download_gpad.

(** ** Vocabulary of the statements *)

Import helpers.

(** [c in s] for a character *)
Fixpoint has_char (c : ascii) (s : string) : bool :=
  match s with
  | EmptyString => false
  | String c' s' => Ascii.eqb c' c || has_char c s'
  end.

(** A token of a composite label: it holds no slash. *)
Definition slash_free (t : string) : Prop := has_char "/" t = false.

Definition SENTINEL : string := "EVERGREENLIFE".

(** The month names in calendar order, and their capitalised abbreviations. *)
Definition ENGLISH_MONTHS : list string :=
  ["january"; "february"; "march"; "april"; "may"; "june"; "july"; "august";
   "september"; "october"; "november"; "december"].

Definition ABBREVIATED_MONTHS : list string :=
  ["Jan"; "Feb"; "Mar"; "Apr"; "May"; "Jun"; "Jul"; "Aug";
   "Sep"; "Oct"; "Nov"; "Dec"].

Fixpoint all_digits (s : string) : bool :=
  match s with
  | EmptyString => true
  | String c s' =>
      match digit_value c with
      | Some _ => all_digits s'
      | None => false
      end
  end.

(** YYYY: four decimal digits *)
Definition is_year (year : string) : Prop :=
  String.length year = 4 /\ all_digits year = true.

(** MM: the month number on two digits *)
Definition two_digits (m : nat) : string :=
  (if (m <? 10)%nat then "0" else "") ++ str_of_nat m.

(** The month reference YYYY-MM of month number [m] in [year] *)
Definition iso_month_of (year : string) (m : nat) : string :=
  year ++ "-" ++ two_digits m.

Definition last_two (s : string) : string :=
  substring (String.length s - 2) 2 s.

(** [<AbbrevMonth>_<YY>.csv] *)
Definition file_suffix (year : string) (m : nat) : string :=
  nth (m - 1) ABBREVIATED_MONTHS "" ++ "_" ++ last_two year ++ ".csv".

Import download_gpad.

(** A title that contains both markers of the suppliers file *)
Definition annex_csv_title (title : string) : Prop :=
  (exists a b, title = a ++ "Annex 1" ++ b)
  /\ (exists a b, title = a ++ "CSV" ++ b).

(** A download card with a title that lacks one of the markers *)
Definition unmarked (c : card) : Prop :=
  exists title, find_p c = Some title /\ ~ annex_csv_title title.

(** The world with one more line in the log *)
Definition logged {machine : Type} (lvl : level) (msg : string)
  (w : world machine) : world machine :=
  mkWorld (files w) (rest w) (log w ++ [(lvl, msg)])%list.

(** The text of a file in a world *)
Definition file_text {machine : Type} (w : world machine) (path : string)
  : option string :=
  dict_get String.eqb (files w) path.

(** The temporary archive of a month *)
Definition zip_path (iso_month : string) : string :=
  "tmp/" ++ iso_month ++ ".zip".

(** The pieces of a body put end to end *)
Definition concat_chunks (chunks : list string) : string :=
  fold_right append "" chunks.

(** A status that [raise_for_status] lets through *)
Definition status_ok (r : response) : Prop :=
  (status_code r < 400 \/ 600 <= status_code r)%Z.

(** The columns of a source row, and a row that has them all *)
Definition code_of (row : list string) : string := nth 1 row "".
Definition name_of (row : list string) : string := nth 2 row "".
Definition label_of (row : list string) : string := nth 3 row "".
Definition wide (row : list string) : Prop := 4 <= List.length row.

(** The main system of a label; the classifier always returns. *)
Definition main_system_of (label : string) : string :=
  match get_main_system_from_value label with
  | Ok main_system => main_system
  | Raise _ => ""
  end.

(** Whether a row bears a code *)
Definition bears (code : string) (row : list string) : bool :=
  String.eqb code (code_of row).

(** The rows that bring a code not in [seen] nor in an earlier row, in
    order: the first row of every new code. *)
Fixpoint first_rows (seen : list string) (rows : list (list string))
  : list (list string) :=
  match rows with
  | [] => []
  | row :: later =>
      if existsb (String.eqb (code_of row)) seen then first_rows seen later
      else row :: first_rows (seen ++ [code_of row])%list later
  end.

Definition data_item (row : list string) : string * (string * string) :=
  (code_of row, (label_of row, main_system_of (label_of row))).
Definition name_item (row : list string) : string * string :=
  (code_of row, name_of row).

(** The output row of a source row: code, name, raw label, main system *)
Definition output_row (row : list string) : list string :=
  [code_of row; name_of row; label_of row; main_system_of (label_of row)].

(** [wide], as a test *)
Definition wideb (row : list string) : bool := (4 <=? List.length row)%nat.

(** The output row of an item of the data mapping, with the name that the
    name mapping has for its code *)
Definition item_row (names : dict (K := string) (V := string))
  (item : string * (string * string)) : list string :=
  [fst item;
   match dict_get String.eqb names (fst item) with
   | Some name => name
   | None => ""
   end;
   fst (snd item); snd (snd item)].

(** The extraction directory of a month *)
Definition unzip_path (month : string) : string := "tmp/" ++ month.





(** ** Strings *)

Lemma append_nil_r (s : string) : s ++ "" = s.
Proof. induction s as [|c s IH]; simpl; [reflexivity | now rewrite IH]. Qed.

Lemma append_assoc (a b c : string) : (a ++ b) ++ c = a ++ b ++ c.
Proof. induction a as [|x a IH]; simpl; [reflexivity | now rewrite IH]. Qed.

Lemma length_append (a b : string) :
  String.length (a ++ b) = String.length a + String.length b.
Proof. induction a as [|x a IH]; simpl; [reflexivity | now rewrite IH]. Qed.

Lemma substring_all (s : string) : substring 0 (String.length s) s = s.
Proof. induction s as [|c s IH]; simpl; [reflexivity | now rewrite IH]. Qed.

Lemma substring_skip (a b : string) (m : nat) :
  substring (String.length a) m (a ++ b) = substring 0 m b.
Proof. induction a as [|c a IH]; simpl; [reflexivity | exact IH]. Qed.

(** A string is its first [i] characters followed by the others. *)
Lemma substring_cut (s : string) :
  forall i, substring 0 i s ++ substring i (String.length s - i) s = s.
Proof.
  induction s as [|c s IH]; intros [|i]; simpl; try reflexivity.
  - now rewrite substring_all.
  - now rewrite (IH i).
Qed.

Lemma length_substring_tail (s : string) :
  forall i, String.length (substring i (String.length s - i) s)
            = String.length s - i.
Proof.
  induction s as [|c s IH]; intros [|i]; simpl; try reflexivity.
  - now rewrite substring_all.
  - exact (IH i).
Qed.

(** [endswith] is true exactly on the strings that are something followed by
    the suffix. *)
Lemma endswith_iff (s p : string) :
  endswith s p = true <-> exists pre, s = pre ++ p.
Proof.
  unfold endswith. rewrite andb_true_iff, Nat.leb_le, String.eqb_eq. split.
  - intros [Hle Hsub].
    exists (substring 0 (String.length s - String.length p) s).
    pose proof (substring_cut s (String.length s - String.length p)) as Hcut.
    replace (String.length s - (String.length s - String.length p))
      with (String.length p) in Hcut by lia.
    rewrite Hsub in Hcut. symmetry. exact Hcut.
  - intros [pre ->]. rewrite length_append. split; [lia|].
    replace (String.length pre + String.length p - String.length p)
      with (String.length pre) by lia.
    rewrite substring_skip. apply substring_all.
Qed.

(** ** Splitting on a character *)

Lemma split_not_nil (sep : ascii) (s : string) : split sep s <> [].
Proof.
  induction s as [|c s IH]; simpl; [discriminate|].
  destruct (Ascii.eqb c sep); [discriminate|].
  destruct (split sep s); [contradiction | discriminate].
Qed.

Lemma split_token (sep : ascii) (t : string) :
  has_char sep t = false -> split sep t = [t].
Proof.
  induction t as [|c t IH]; simpl; [reflexivity|].
  intros H. apply orb_false_iff in H as [Hc Ht].
  rewrite Hc, (IH Ht). reflexivity.
Qed.

Lemma split_token_sep (sep : ascii) (t rest : string) :
  has_char sep t = false ->
  split sep (t ++ String sep rest) = t :: split sep rest.
Proof.
  induction t as [|c t IH]; simpl.
  - intros _. now rewrite Ascii.eqb_refl.
  - intros H. apply orb_false_iff in H as [Hc Ht].
    rewrite Hc, (IH Ht). reflexivity.
Qed.

(** Splitting undoes joining, for tokens without the separator. *)
Lemma split_join (sep : ascii) (tokens : list string) :
  tokens <> [] ->
  Forall (fun t => has_char sep t = false) tokens ->
  split sep (join (String sep "") tokens) = tokens.
Proof.
  induction tokens as [|t rest IH]; [congruence|].
  intros _ Hall. inversion Hall as [|? ? Ht Hrest]; subst.
  destruct rest as [|t' rest'].
  - simpl. now apply split_token.
  - change (join (String sep "") (t :: t' :: rest'))
      with (t ++ String sep (join (String sep "") (t' :: rest'))).
    rewrite (split_token_sep _ _ _ Ht), IH; [reflexivity | discriminate | assumption].
Qed.

(** ** C1: the classifier *)

(** C1, as the code has it.  For a label made of one or more slash-free
    tokens joined by slashes, [get_main_system_from_value] returns the sole
    token when there is one; the second token whenever there are two or more
    tokens and the first is the sentinel EVERGREENLIFE; and the first token
    in every other case (so also when the second token is the sentinel). *)
Theorem get_main_system_from_value_tokens (tokens : list string) :
  tokens <> [] ->
  Forall slash_free tokens ->
  let main_system := get_main_system_from_value (join "/" tokens) in
  (forall t, tokens = [t] -> main_system = Ok t)
  /\ (forall t1 more, tokens = SENTINEL :: t1 :: more -> main_system = Ok t1)
  /\ (forall t0 t1 more,
        tokens = t0 :: t1 :: more -> t0 <> SENTINEL -> main_system = Ok t0).
Proof.
  intros Hne Hall main_system. subst main_system.
  unfold get_main_system_from_value.
  rewrite (split_join "/" tokens Hne Hall).
  repeat split.
  - intros t ->. reflexivity.
  - intros t1 more ->. reflexivity.
  - intros t0 t1 more -> Hneq. cbn [List.length Nat.eqb getitem nth_error bind].
    apply String.eqb_neq in Hneq. unfold SENTINEL in Hneq. rewrite Hneq.
    destruct (String.eqb t1 "EVERGREENLIFE"); reflexivity.
Qed.

Lemma get_main_system_from_value_tokens_witness :
  get_main_system_from_value "EVERGREENLIFE/TPP" = Ok "TPP"
  /\ get_main_system_from_value "TPP/EVERGREENLIFE" = Ok "TPP".
Proof.
  split.
  - exact (proj1 (proj2 (get_main_system_from_value_tokens
                           ["EVERGREENLIFE"; "TPP"]
                           ltac:(discriminate) ltac:(repeat constructor)))
             "TPP" [] eq_refl).
  - exact (proj2 (proj2 (get_main_system_from_value_tokens
                           ["TPP"; "EVERGREENLIFE"]
                           ltac:(discriminate) ltac:(repeat constructor)))
             "TPP" "EVERGREENLIFE" [] eq_refl ltac:(discriminate)).
Defined.

(** C1 as stated fails on three tokens with the sentinel first: the code
    returns the second token, not the first. *)
Lemma get_main_system_from_value_three_tokens :
  split "/" "EVERGREENLIFE/TPP/EMIS" = ["EVERGREENLIFE"; "TPP"; "EMIS"]
  /\ get_main_system_from_value "EVERGREENLIFE/TPP/EMIS" = Ok "TPP"
  /\ get_main_system_from_value "EVERGREENLIFE/TPP/EMIS" <> Ok "EVERGREENLIFE".
Proof. repeat split. discriminate. Qed.

(** ** C6, C10: month references *)

Lemma digit_is_not_dash (c : ascii) (d : Z) :
  digit_value c = Some d -> Ascii.eqb c "-" = false.
Proof.
  intros H. destruct (Ascii.eqb_spec c "-") as [->|]; [|reflexivity].
  discriminate H.
Qed.

Lemma all_digits_dash_free (s : string) :
  all_digits s = true -> has_char "-" s = false.
Proof.
  induction s as [|c s IH]; simpl; [reflexivity|].
  destruct (digit_value c) as [d|] eqn:Hd; [|discriminate].
  intros H. now rewrite (digit_is_not_dash c d Hd), (IH H).
Qed.

(** A reference with one dash splits into the year and the month part. *)
Lemma get_month_and_year_two_parts (year month : string) :
  has_char "-" year = false ->
  has_char "-" month = false ->
  get_month_and_year_from_iso_month (year ++ "-" ++ month)
  = (name <- month_to_name month ;; Ok (name, year)).
Proof.
  intros Hy Hm. unfold get_month_and_year_from_iso_month.
  change (year ++ "-" ++ month) with (year ++ String "-" month).
  now rewrite (split_token_sep "-" year month Hy), (split_token "-" month Hm).
Qed.

Lemma int_raises_ValueError (s : string) (e : exn) :
  Py.int s = Raise e -> e = ValueError.
Proof.
  unfold Py.int. cbv zeta.
  match goal with
  | |- match ?p with Some _ => _ | None => _ end = _ -> _ => destruct p
  end; congruence.
Qed.

Lemma month_table_miss (n : Z) :
  (n < 1 \/ 12 < n)%Z -> dict_get Z.eqb month_table n = None.
Proof.
  intros Hn. unfold month_table. simpl.
  repeat match goal with
         | |- context [Z.eqb n ?k] => destruct (Z.eqb_spec n k); [lia|]
         end.
  reflexivity.
Qed.

Lemma month_table_hit (n : Z) :
  (1 <= n <= 12)%Z ->
  dict_get Z.eqb month_table n = Some (nth (Z.to_nat n - 1) ENGLISH_MONTHS "").
Proof.
  intros Hn.
  assert (H : (n = 1 \/ n = 2 \/ n = 3 \/ n = 4 \/ n = 5 \/ n = 6 \/ n = 7
               \/ n = 8 \/ n = 9 \/ n = 10 \/ n = 11 \/ n = 12)%Z) by lia.
  repeat (destruct H as [->|H]; [reflexivity|]). now subst.
Qed.

Lemma get_month_and_year_of_iso_month (year : string) (m : nat) :
  has_char "-" year = false -> 1 <= m <= 12 ->
  get_month_and_year_from_iso_month (iso_month_of year m)
  = Ok (nth (m - 1) ENGLISH_MONTHS "", year).
Proof.
  intros Hy Hm. unfold iso_month_of.
  assert (H : m = 1 \/ m = 2 \/ m = 3 \/ m = 4 \/ m = 5 \/ m = 6 \/ m = 7
              \/ m = 8 \/ m = 9 \/ m = 10 \/ m = 11 \/ m = 12) by lia.
  repeat (destruct H as [->|H];
          [rewrite get_month_and_year_two_parts by (assumption || reflexivity);
           reflexivity|]).
  subst. rewrite get_month_and_year_two_parts by (assumption || reflexivity).
  reflexivity.
Qed.

(** C6.  For every month reference YYYY-MM, with YYYY four digits and MM the
    two-digit number of a month between 1 and 12,
    [get_month_and_year_from_iso_month] returns the lowercase English name of
    that month and the year string; 2025-01 gives (january, 2025) and
    2025-10 gives (october, 2025). *)
Theorem get_month_and_year_from_iso_month_valid :
  (forall (year : string) (m : nat),
      is_year year -> 1 <= m <= 12 ->
      get_month_and_year_from_iso_month (iso_month_of year m)
      = Ok (nth (m - 1) ENGLISH_MONTHS "", year))
  /\ get_month_and_year_from_iso_month "2025-01" = Ok ("january", "2025")
  /\ get_month_and_year_from_iso_month "2025-10" = Ok ("october", "2025").
Proof.
  split; [|split; reflexivity].
  intros year m [_ Hd] Hm.
  apply get_month_and_year_of_iso_month; [|exact Hm].
  now apply all_digits_dash_free.
Qed.

Lemma get_month_and_year_from_iso_month_valid_witness :
  is_year "1999" /\ 1 <= 12 <= 12
  /\ get_month_and_year_from_iso_month "1999-12" = Ok ("december", "1999").
Proof.
  split; [split; reflexivity|]. split; [lia|].
  exact (proj1 get_month_and_year_from_iso_month_valid "1999" 12
           (conj eq_refl eq_refl) ltac:(lia)).
Defined.

(** C10.  [get_month_and_year_from_iso_month] raises on every reference that
    does not split on the dash into exactly two parts, and on every reference
    whose month part [int] rejects or reads as a number outside 1..12; when
    the month part reads as a number in 1..12 it returns that month's name
    with the year part as it stands, whatever the year part is and whether or
    not the month is zero-padded. *)
Theorem get_month_and_year_from_iso_month_errors :
  (forall s, List.length (split "-" s) <> 2 ->
             get_month_and_year_from_iso_month s = Raise ValueError)
  /\ (forall s year month,
         split "-" s = [year; month] ->
         (forall n, Py.int month = Ok n -> (n < 1 \/ 12 < n)%Z) ->
         get_month_and_year_from_iso_month s = Raise ValueError
         \/ get_month_and_year_from_iso_month s = Raise KeyError)
  /\ (forall s year month n,
         split "-" s = [year; month] ->
         Py.int month = Ok n -> (1 <= n <= 12)%Z ->
         get_month_and_year_from_iso_month s
         = Ok (nth (Z.to_nat n - 1) ENGLISH_MONTHS "", year))
  /\ get_month_and_year_from_iso_month "2025-13" = Raise KeyError
  /\ get_month_and_year_from_iso_month "2025" = Raise ValueError
  /\ get_month_and_year_from_iso_month "2025-1" = Ok ("january", "2025")
  /\ get_month_and_year_from_iso_month "next year-1"
     = Ok ("january", "next year").
Proof.
  repeat split; try reflexivity.
  - intros s Hlen. unfold get_month_and_year_from_iso_month.
    destruct (split "-" s) as [|a [|b [|c l]]]; try reflexivity.
    now elim Hlen.
  - intros s year month Hs Hbad. unfold get_month_and_year_from_iso_month.
    rewrite Hs. unfold month_to_name.
    destruct (Py.int month) as [n|e] eqn:Hint.
    + right. cbn [bind]. unfold dict_getitem.
      now rewrite (month_table_miss n (Hbad n eq_refl)).
    + left. cbn [bind]. now rewrite (int_raises_ValueError month e Hint).
  - intros s year month n Hs Hint Hn. unfold get_month_and_year_from_iso_month.
    rewrite Hs. unfold month_to_name. rewrite Hint. cbn [bind].
    unfold dict_getitem. now rewrite (month_table_hit n Hn).
Qed.

Lemma get_month_and_year_from_iso_month_errors_witness :
  get_month_and_year_from_iso_month "2025-01-01" = Raise ValueError
  /\ (get_month_and_year_from_iso_month "2025-0" = Raise ValueError
      \/ get_month_and_year_from_iso_month "2025-0" = Raise KeyError)
  /\ get_month_and_year_from_iso_month "20x5- 7" = Ok ("july", "20x5").
Proof.
  destruct get_month_and_year_from_iso_month_errors as (Hparts & Hbad & Hok & _).
  split; [|split].
  - apply (Hparts "2025-01-01"). discriminate.
  - apply (Hbad "2025-0" "2025" "0" eq_refl).
    intros n Hn. assert (n = 0%Z) by (vm_compute in Hn; congruence). lia.
  - exact (Hok "20x5- 7" "20x5" " 7" 7%Z eq_refl eq_refl ltac:(lia)).
Defined.

(** ** C7: the files of a month *)

Lemma slice_year (year : string) :
  String.length year = 4 -> slice year 2 4 = last_two year.
Proof. intros H. unfold slice, last_two. now rewrite H. Qed.

(** C7.  For every directory listing and every month reference YYYY-MM of a
    month between 1 and 12, [get_data_file_paths] returns, in the order of
    the listing, exactly the entries whose name ends with the capitalised
    three-letter month, an underscore, the last two digits of the year and
    [.csv], each joined to the directory with [os.path.join]; for 2025-10 the
    suffix is [Oct_25.csv]. *)
Theorem get_data_file_paths_valid
  (os_listdir : string -> result (list string))
  (unzip_dir year : string) (m : nat) (entries : list string) :
  is_year year -> 1 <= m <= 12 ->
  os_listdir unzip_dir = Ok entries ->
  exists paths,
    get_data_file_paths os_listdir unzip_dir (iso_month_of year m) = Ok paths
    /\ paths = map (os_path_join unzip_dir)
                 (filter (fun f => endswith f (file_suffix year m)) entries)
    /\ (forall p, In p paths <->
                  exists f pre, In f entries
                                /\ f = pre ++ file_suffix year m
                                /\ p = os_path_join unzip_dir f)
    /\ file_suffix "2025" 10 = "Oct_25.csv".
Proof.
  intros [Hlen Hdigits] Hm Hls.
  eexists. split; [|split; [reflexivity|split; [|reflexivity]]].
  - unfold get_data_file_paths.
    rewrite (get_month_and_year_of_iso_month year m
               (all_digits_dash_free year Hdigits) Hm).
    cbn [bind]. rewrite Hls. cbn [bind]. rewrite (slice_year year Hlen).
    unfold file_suffix.
    assert (H : m = 1 \/ m = 2 \/ m = 3 \/ m = 4 \/ m = 5 \/ m = 6 \/ m = 7
                \/ m = 8 \/ m = 9 \/ m = 10 \/ m = 11 \/ m = 12) by lia.
    repeat (destruct H as [->|H]; [reflexivity|]). subst. reflexivity.
  - intros p. rewrite in_map_iff. split.
    + intros (f & Hp & Hf). apply filter_In in Hf as [Hin Hend].
      apply endswith_iff in Hend as [pre Hpre]. now exists f, pre.
    + intros (f & pre & Hin & Hf & Hp). exists f. split; [now symmetry|].
      apply filter_In. split; [assumption|]. apply endswith_iff. now exists pre.
Qed.

Lemma get_data_file_paths_valid_witness :
  get_data_file_paths
    (fun _ => Ok ["Practice_Level_Crosstab_Midlands_Oct_25.csv";
                  "Practice_Level_Crosstab_Midlands_Sep_25.csv";
                  "Oct_25.csv.txt"; "Regional_Oct_25.csv"])
    "tmp/2025-10" "2025-10"
  = Ok ["tmp/2025-10/Practice_Level_Crosstab_Midlands_Oct_25.csv";
        "tmp/2025-10/Regional_Oct_25.csv"].
Proof.
  destruct (get_data_file_paths_valid
              (fun _ => Ok ["Practice_Level_Crosstab_Midlands_Oct_25.csv";
                            "Practice_Level_Crosstab_Midlands_Sep_25.csv";
                            "Oct_25.csv.txt"; "Regional_Oct_25.csv"])
              "tmp/2025-10" "2025" 10 _
              (conj eq_refl eq_refl) ltac:(lia) eq_refl)
    as (paths & Hrun & Hpaths & _).
  rewrite Hpaths in Hrun. exact Hrun.
Defined.

(** ** C4: the download link *)

Lemma prefix_iff (p s : string) :
  prefix p s = true <-> exists post, s = p ++ post.
Proof.
  revert s. induction p as [|c p IH]; intros [|c' s]; simpl.
  - split; [intros _; now exists "" | reflexivity].
  - split; [intros _; now exists (String c' s) | reflexivity].
  - split; [discriminate | intros [post H]; discriminate].
  - destruct (ascii_dec c c') as [->|Hne].
    + rewrite IH. split; intros [post H]; exists post; congruence.
    + split; [discriminate | intros [post H]; congruence].
Qed.

Lemma contains_unfold (hay needle : string) :
  contains hay needle
  = prefix needle hay
    || match hay with
       | EmptyString => false
       | String _ hay' => contains hay' needle
       end.
Proof. destruct hay; reflexivity. Qed.

(** [needle in hay] holds exactly when [hay] is something, then [needle],
    then something. *)
Lemma contains_iff (hay needle : string) :
  contains hay needle = true <-> exists a b, hay = a ++ needle ++ b.
Proof.
  split.
  - induction hay as [|c hay IH]; rewrite contains_unfold, orb_true_iff;
      intros [H|H]; try discriminate.
    + apply prefix_iff in H as [post H]. now exists "", post.
    + apply prefix_iff in H as [post H]. now exists "", post.
    + destruct (IH H) as (a & b & ->). now exists (String c a), b.
  - intros (a & b & ->). induction a as [|c a IH].
    + rewrite contains_unfold, orb_true_iff. left. apply prefix_iff.
      now exists b.
    + rewrite contains_unfold, orb_true_iff. right. exact IH.
Qed.

Lemma marker_test_iff (title : string) :
  contains title "Annex 1" && contains title "CSV" = true
  <-> annex_csv_title title.
Proof.
  unfold annex_csv_title. now rewrite andb_true_iff, !contains_iff.
Qed.

Lemma scan_downloads_unmarked (downloads later : list card) :
  Forall unmarked downloads ->
  scan_downloads (downloads ++ later)%list = scan_downloads later.
Proof.
  induction 1 as [|c l (title & Ht & Hno) _ IH]; [reflexivity|].
  simpl. rewrite Ht.
  destruct (contains title "Annex 1" && contains title "CSV") eqn:E;
    [|exact IH].
  apply marker_test_iff in E. contradiction.
Qed.

(** C4.  With [downloads] the download cards of the page:
    when there is none, resolution fails with [No downloads found.];
    when the cards before some card all have a title lacking a marker and
    that card's title contains both [Annex 1] and [CSV], resolution returns
    that card's link; when there are N >= 1 cards and each has a title
    lacking a marker, resolution fails with a message that reports N. *)
Theorem get_download_link_from_response_spec
  (select_download_cards : string -> list card) (r : response) :
  let downloads := select_download_cards (content r) in
  let link := get_download_link_from_response select_download_cards r in
  (downloads = [] -> link = Raise (Exception "No downloads found."))
  /\ (forall before c after title href,
         downloads = (before ++ c :: after)%list ->
         Forall unmarked before ->
         find_p c = Some title -> annex_csv_title title ->
         find_a c = Some href ->
         link = Ok href)
  /\ (downloads <> [] -> Forall unmarked downloads ->
      link = Raise (Exception
               ("Found " ++ str_of_nat (List.length downloads)
                ++ " downloads. No Annex 1 CSV downloads found."))).
Proof.
  intros downloads link. subst link. unfold get_download_link_from_response.
  fold downloads. repeat split.
  - intros ->. reflexivity.
  - intros before c after title href -> Hbefore Ht Hmark Ha.
    rewrite (scan_downloads_unmarked before _ Hbefore). simpl.
    apply marker_test_iff in Hmark. now rewrite Ht, Hmark, Ha.
  - intros Hne Hall.
    pose proof (scan_downloads_unmarked downloads [] Hall) as Hscan.
    rewrite app_nil_r in Hscan. rewrite Hscan. simpl.
    destruct downloads; [contradiction | reflexivity].
Qed.

Lemma get_download_link_from_response_spec_witness :
  get_download_link_from_response
    (fun _ => [mkCard (Some "Annex 1 (Excel)") (Some (Some "/a.xlsx"));
               mkCard (Some "Annex 1 - Practice level (CSV, zipped)")
                      (Some (Some "/annex1.zip"));
               mkCard (Some "Annex 1 regional CSV") (Some (Some "/b.zip"))])
    (mkResponse 200 "<html>")
  = Ok (Some "/annex1.zip")
  /\ get_download_link_from_response
       (fun _ => [mkCard (Some "Summary (PDF)") (Some (Some "/s.pdf"));
                  mkCard (Some "Annex 1 (Excel)") (Some (Some "/a.xlsx"))])
       (mkResponse 200 "<html>")
     = Raise (Exception "Found 2 downloads. No Annex 1 CSV downloads found.").
Proof.
  assert (Hno : forall t, contains t "Annex 1" && contains t "CSV" = false ->
                          ~ annex_csv_title t).
  { intros t E H. apply marker_test_iff in H. congruence. }
  split.
  - eapply (proj1 (proj2 (get_download_link_from_response_spec _ _))
              [mkCard (Some "Annex 1 (Excel)") (Some (Some "/a.xlsx"))]
              _ _ "Annex 1 - Practice level (CSV, zipped)");
      [reflexivity | | reflexivity | | reflexivity].
    + constructor; [|constructor]. eexists. split; [reflexivity|].
      now apply Hno.
    + now apply marker_test_iff.
  - apply (proj2 (proj2 (get_download_link_from_response_spec
                           (fun _ => [mkCard (Some "Summary (PDF)")
                                        (Some (Some "/s.pdf"));
                                      mkCard (Some "Annex 1 (Excel)")
                                        (Some (Some "/a.xlsx"))])
                           (mkResponse 200 "<html>"))));
      [discriminate|].
    repeat constructor; eexists; (split; [reflexivity | now apply Hno]).
Defined.

(** ** Dictionaries keyed by strings *)

Lemma dict_get_set {V : Type} (d : dict (K := string) (V := V))
  (k c : string) (v : V) :
  dict_get String.eqb (dict_set String.eqb d k v) c
  = if String.eqb c k then Some v else dict_get String.eqb d c.
Proof.
  induction d as [|[k' v'] d IH]; simpl.
  - reflexivity.
  - destruct (String.eqb_spec k k') as [->|Hk]; simpl.
    + destruct (String.eqb_spec c k'); reflexivity.
    + rewrite IH. destruct (String.eqb_spec c k') as [->|Hc];
        [|reflexivity].
      destruct (String.eqb_spec k' k); [congruence | reflexivity].
Qed.

Lemma dict_mem_keys {V : Type} (d : dict (K := string) (V := V))
  (k : string) :
  dict_mem String.eqb d k = existsb (String.eqb k) (dict_keys d).
Proof.
  unfold dict_mem. induction d as [|[k' v'] d IH]; simpl; [reflexivity|].
  destruct (String.eqb k k'); [reflexivity | exact IH].
Qed.

Lemma dict_set_absent {V : Type} (d : dict (K := string) (V := V))
  (k : string) (v : V) :
  dict_mem String.eqb d k = false ->
  dict_set String.eqb d k v = (d ++ [(k, v)])%list.
Proof.
  unfold dict_mem. induction d as [|[k' v'] d IH]; simpl; [reflexivity|].
  destruct (String.eqb k k'); [discriminate|].
  intros H. now rewrite (IH H).
Qed.

(** ** C2: the archive file *)

Lemma iter_slices_from_concat (n : nat) :
  0 < n ->
  forall fuel s, String.length s <= fuel ->
                 concat_chunks (iter_slices_from fuel s n) = s.
Proof.
  intros Hn. induction fuel as [|fuel IH]; intros s Hlen.
  - destruct s; [reflexivity | simpl in Hlen; lia].
  - simpl. destruct (Nat.eqb_spec (String.length s) 0) as [H0|H0].
    + destruct s; [reflexivity | discriminate].
    + simpl. rewrite IH; [apply substring_cut|].
      rewrite length_substring_tail. lia.
Qed.

(** The pieces of [iter_slices], put end to end, are the string. *)
Lemma iter_slices_concat (s : string) (n : nat) :
  0 < n -> concat_chunks (iter_slices s n) = s.
Proof. intros Hn. now apply iter_slices_from_concat. Qed.

Section ArchiveFile.
Context {machine : Type}.

Lemma write_chunks_text (path : string) (chunks : list string) :
  forall (w : world machine) (old : string),
    file_text w path = Some old ->
    exists w',
      write_chunks path chunks w = (Ok tt, w')
      /\ file_text w' path = Some (old ++ concat_chunks chunks)
      /\ log w' = log w.
Proof.
  induction chunks as [|chunk later IH]; intros w old Hold.
  - exists w. simpl. now rewrite append_nil_r.
  - destruct (IH (set_files w (dict_set String.eqb (files w) path
                                 (old ++ chunk))) (old ++ chunk))
      as (w' & Hrun & Htext & Hlog).
    { unfold file_text. simpl. now rewrite dict_get_set, String.eqb_refl. }
    exists w'. split; [|split].
    + simpl. unfold pbind, file_write. unfold file_text in Hold.
      rewrite Hold. exact Hrun.
    + rewrite Htext. simpl. now rewrite append_assoc.
    + exact Hlog.
Qed.

Variable builtin_message : exn -> string.
Variable requests_get : option string -> prog machine response.
Variable select_download_cards : string -> list card.
Variable may_create : string -> world machine -> bool.

(** C2, what the code does.  When the month reference is valid, a link is
    supplied, the GET request returns a response with a passing status and
    the archive file can be opened, [download_gpad_zip_file] returns and
    leaves in [tmp/<month>.zip] the body of the response followed by the
    body of the response: the body is written twice. *)
Theorem download_gpad_zip_file_writes_body_twice
  (iso_month link : string) (r : response) (w : world machine) :
  (exists my, get_month_and_year_from_iso_month iso_month = Ok my) ->
  (forall w', requests_get (Some link) w' = (Ok r, w')) ->
  status_ok r ->
  (forall w', may_create (zip_path iso_month) w' = true) ->
  exists w',
    download_gpad_zip_file builtin_message requests_get
      select_download_cards may_create iso_month (Some link) w = (Ok tt, w')
    /\ file_text w' (zip_path iso_month) = Some (content r ++ content r).
Proof.
  intros [[month year] Hmy] Hget Hstatus Hcreate.
  unfold zip_path in *.
  unfold download_gpad_zip_file. unfold pbind, lift. rewrite Hmy.
  cbn [logger_info logger ret]. rewrite Hget.
  unfold raise_for_status.
  replace ((400 <=? status_code r)%Z && (status_code r <? 600)%Z)
    with false
    by (symmetry; apply andb_false_iff; unfold status_ok in Hstatus;
        rewrite Z.leb_gt, Z.ltb_ge; lia).
  cbn [ret]. unfold open_w. rewrite Hcreate.
  match goal with
  | |- context [write_chunks ?p ?c ?w0] =>
      destruct (write_chunks_text p c w0 "") as (w1 & Hrun & Htext & Hlog)
  end.
  { unfold file_text. simpl. now rewrite dict_get_set, String.eqb_refl. }
  rewrite Hrun. unfold file_write. unfold file_text in Htext. rewrite Htext.
  eexists. split; [reflexivity|].
  unfold file_text. simpl. rewrite dict_get_set, String.eqb_refl.
  unfold iter_content. rewrite iter_slices_concat; [reflexivity|].
  unfold CHUNK_SIZE. lia.
Qed.
End ArchiveFile.

(** A fetch of the ten-character body [PK-archive]: the archive file holds
    twenty characters, not the body. *)
Lemma download_gpad_zip_file_writes_body_twice_witness :
  file_text
    (snd (download_gpad_zip_file (fun _ => "")
            (fun _ w => (Ok (mkResponse 200 "PK-archive"), w))
            (fun _ => []) (fun _ _ => true)
            "2025-10" (Some "https://files.example/annex1.zip")
            (mkWorld [] tt [])))
    "tmp/2025-10.zip"
  = Some "PK-archivePK-archive"
  /\ Some "PK-archivePK-archive" <> Some "PK-archive".
Proof.
  split; [|discriminate].
  destruct (download_gpad_zip_file_writes_body_twice (fun _ => "")
              (fun _ w => (Ok (mkResponse 200 "PK-archive"), w))
              (fun _ => []) (fun _ _ => true)
              "2025-10" "https://files.example/annex1.zip"
              (mkResponse 200 "PK-archive") (mkWorld [] tt [])
              (ex_intro _ ("october", "2025") eq_refl)
              (fun _ => eq_refl) (or_introl eq_refl) (fun _ => eq_refl))
    as (w' & Hrun & Htext).
  rewrite Hrun. exact Htext.
Defined.

(** ** C3: the aggregation of the rows *)

Lemma getitem_wide (row : list string) :
  wide row ->
  getitem row 1 = Ok (code_of row)
  /\ getitem row 2 = Ok (name_of row)
  /\ getitem row 3 = Ok (label_of row).
Proof.
  unfold wide. destruct row as [|a [|b [|c [|d l]]]]; simpl; intros H;
    try lia. repeat split.
Qed.

Lemma getitem_short (row : list string) :
  ~ wide row ->
  getitem row 1 = Raise IndexError
  \/ getitem row 2 = Raise IndexError
  \/ getitem row 3 = Raise IndexError.
Proof.
  unfold wide. destruct row as [|a [|b [|c [|d l]]]]; simpl; intros H;
    [now left | now left | now right; left | now right; right | lia].
Qed.

(** The classifier returns on every label. *)
Lemma get_main_system_from_value_total (value : string) :
  get_main_system_from_value value = Ok (main_system_of value).
Proof.
  assert (H : exists m, get_main_system_from_value value = Ok m).
  { unfold get_main_system_from_value.
    pose proof (split_not_nil "/" value) as Hne.
    destruct (split "/" value) as [|a [|b l]]; [contradiction | now exists a |].
    cbn [List.length Nat.eqb getitem nth_error bind].
    destruct (String.eqb a "EVERGREENLIFE"); [now exists b|].
    destruct (String.eqb b "EVERGREENLIFE"); now exists a. }
  destruct H as [m Hm]. unfold main_system_of. now rewrite Hm.
Qed.

Lemma process_row_wide (data : dict (K := string) (V := string * string))
  (names : dict (K := string) (V := string)) (row : list string) :
  wide row ->
  process_row (data, names) row
  = Ok (if dict_mem String.eqb data (code_of row) then data
        else (data ++ [data_item row])%list,
        if dict_mem String.eqb names (code_of row) then names
        else (names ++ [name_item row])%list).
Proof.
  intros Hw. destruct (getitem_wide row Hw) as (H1 & H2 & H3).
  unfold process_row. rewrite H1, H2, H3. cbn [bind].
  rewrite get_main_system_from_value_total. cbn [bind].
  destruct (dict_mem String.eqb data (code_of row)) eqn:Ed;
    destruct (dict_mem String.eqb names (code_of row)) eqn:En;
    cbn [negb]; rewrite ?(dict_set_absent data _ _ Ed),
                  ?(dict_set_absent names _ _ En); reflexivity.
Qed.

Lemma process_row_short (st : aggregate) (row : list string) :
  ~ wide row -> process_row st row = Raise IndexError.
Proof.
  intros Hs. destruct st as [data names]. unfold process_row.
  unfold wide in Hs.
  destruct row as [|a [|b [|c [|d l]]]]; try reflexivity.
  simpl in Hs. lia.
Qed.

Lemma wide_dec (row : list string) : {wide row} + {~ wide row}.
Proof. unfold wide. apply le_dec. Qed.

(** After the header, the loop appends the first row of every new code. *)
Lemma process_rows_first_rows (rows : list (list string)) :
  Forall wide rows ->
  forall index data names,
    process_rows (S index) rows (data, names)
    = Ok ((data ++ map data_item (first_rows (dict_keys data) rows))%list,
          (names ++ map name_item (first_rows (dict_keys names) rows))%list).
Proof.
  induction 1 as [|row rows Hw _ IH]; intros index data names.
  - simpl. now rewrite !app_nil_r.
  - cbn [process_rows Nat.eqb]. rewrite (process_row_wide data names row Hw).
    cbn [bind]. rewrite IH. cbn [first_rows].
    rewrite <- !dict_mem_keys.
    destruct (dict_mem String.eqb data (code_of row));
      destruct (dict_mem String.eqb names (code_of row));
      unfold dict_keys; rewrite ?map_app, <- ?app_assoc; reflexivity.
Qed.

Lemma process_rows_ok_wide (rows : list (list string)) :
  forall index st st',
    process_rows (S index) rows st = Ok st' -> Forall wide rows.
Proof.
  induction rows as [|row rows IH]; intros index st st' Hrun; [constructor|].
  cbn [process_rows Nat.eqb] in Hrun.
  destruct (wide_dec row) as [Hw|Hs].
  - destruct (process_row st row) as [st1|e]; [|discriminate].
    constructor; [assumption|]. exact (IH _ _ _ Hrun).
  - rewrite (process_row_short st row Hs) in Hrun. discriminate.
Qed.

(** A row after the header that lacks a column stops the loop. *)
Lemma process_rows_short_row (rows : list (list string)) :
  Exists (fun row => ~ wide row) rows ->
  forall index st, process_rows (S index) rows st = Raise IndexError.
Proof.
  induction rows as [|row rows IH]; intros Hex index st;
    [inversion Hex|].
  cbn [process_rows Nat.eqb].
  destruct (wide_dec row) as [Hw|Hs].
  - destruct st as [data names]. rewrite (process_row_wide data names row Hw).
    cbn [bind]. apply IH. inversion Hex; [contradiction | assumption].
  - now rewrite (process_row_short st row Hs).
Qed.

(** The two mappings that the loop builds from an empty start. *)
Lemma process_rows_shape (table : list (list string)) (data names : _) :
  process_rows 0 table ([], []) = Ok (data, names) ->
  Forall wide (tl table)
  /\ data = map data_item (first_rows [] (tl table))
  /\ names = map name_item (first_rows [] (tl table)).
Proof.
  destruct table as [|header rows]; cbn [process_rows Nat.eqb tl].
  - intros H. inversion H. repeat split. constructor.
  - intros Hrun. pose proof (process_rows_ok_wide rows 0 _ _ Hrun) as Hw.
    rewrite (process_rows_first_rows rows Hw) in Hrun.
    inversion Hrun. now repeat split.
Qed.

(** Looking a code up among the first rows finds the first row that bears
    it, unless the code was seen before. *)
Lemma dict_get_first_rows {V : Type} (item : list string -> string * V) :
  (forall row, fst (item row) = code_of row) ->
  forall rows seen code,
    dict_get String.eqb (map item (first_rows seen rows)) code
    = if existsb (String.eqb code) seen then None
      else option_map (fun row => snd (item row)) (find (bears code) rows).
Proof.
  intros Hfst. induction rows as [|row rows IH]; intros seen code.
  - simpl. now destruct (existsb _ seen).
  - cbn [first_rows find]. unfold bears at 1.
    destruct (existsb (String.eqb (code_of row)) seen) eqn:Eseen.
    + rewrite IH. destruct (existsb (String.eqb code) seen) eqn:Ecode;
        [reflexivity|].
      destruct (String.eqb_spec code (code_of row)) as [->|]; [|reflexivity].
      congruence.
    + cbn [map dict_get]. specialize (Hfst row).
      destruct (item row) as [k v] eqn:Eitem. simpl in Hfst. subst k.
      rewrite IH, existsb_app. cbn [existsb snd].
      destruct (String.eqb_spec code (code_of row)) as [->|].
      * rewrite Eseen. simpl. now rewrite Eitem.
      * simpl. now rewrite !orb_false_r.
Qed.

Section Aggregation.
Context {machine : Type}.
Variable csv_reader : string -> list (list string).

(** What [process_data_file] runs on: the rows read from the file. *)
Lemma process_data_file_rows (path : string) (w : world machine) :
  process_data_file csv_reader path w
  = match file_text w path with
    | Some text =>
        (process_rows 0 (csv_reader text) ([], []),
         logged INFO ("Processing data file: " ++ path) w)
    | None =>
        (Raise OSError, logged INFO ("Processing data file: " ++ path) w)
    end.
Proof.
  unfold process_data_file, pbind, logger_info, logger, open_r, file_text,
    lift, logged. cbn [files].
  destruct (dict_get String.eqb (files w) path); reflexivity.
Qed.

(** C3.  A row with the three columns whose code is already recorded leaves
    both mappings as they are.  And for every table read from the input
    file whose rows after row 0 have the columns 1, 2 and 3,
    [process_data_file] returns two mappings in which every code has the
    label, the main system of that label, and the name of the first row
    after row 0 that bears the code; row 0 and every later row bearing a
    recorded code contribute nothing. *)
Theorem process_data_file_first_seen :
  (forall data names row,
      wide row ->
      dict_mem String.eqb data (code_of row) = true ->
      dict_mem String.eqb names (code_of row) = true ->
      process_row (data, names) row = Ok (data, names))
  /\ (forall (path text : string) (w : world machine),
         file_text w path = Some text ->
         Forall wide (tl (csv_reader text)) ->
         exists data names,
           process_data_file csv_reader path w
           = (Ok (data, names),
              logged INFO ("Processing data file: " ++ path) w)
           /\ (forall code,
                  dict_get String.eqb data code
                  = option_map
                      (fun row => (label_of row,
                                   main_system_of (label_of row)))
                      (find (bears code) (tl (csv_reader text))))
           /\ (forall code,
                  dict_get String.eqb names code
                  = option_map name_of
                      (find (bears code) (tl (csv_reader text))))).
Proof.
  split.
  - intros data names row Hw Hd Hn.
    rewrite (process_row_wide data names row Hw). now rewrite Hd, Hn.
  - intros path text w Htext Hw.
    exists (map data_item (first_rows [] (tl (csv_reader text)))),
      (map name_item (first_rows [] (tl (csv_reader text)))).
    split; [|split].
    + rewrite process_data_file_rows, Htext. f_equal.
      destruct (csv_reader text) as [|header rows]; [reflexivity|].
      cbn [process_rows Nat.eqb tl] in *.
      now rewrite (process_rows_first_rows rows Hw).
    + intros code. now rewrite (dict_get_first_rows data_item).
    + intros code. now rewrite (dict_get_first_rows name_item).
Qed.
End Aggregation.

(** A table with a header, two codes and a later row that repeats the first
    code with another name and label: the first row of the code stays. *)
Lemma process_data_file_first_seen_witness :
  (exists data names,
      fst (process_data_file
             (fun _ => [["Region"; "GP_CODE"; "GP_NAME"; "SUPPLIER"];
                        ["R1"; "A1"; "Test Surgery"; "EVERGREENLIFE/TPP"];
                        ["R1"; "B2"; "Other Surgery"; "EMIS"];
                        ["R1"; "A1"; "Renamed Surgery"; "CEGEDIM"]])
             "tmp/2025-10/in.csv"
             (mkWorld [("tmp/2025-10/in.csv", "text")] tt []))
      = Ok (data, names)
      /\ dict_get String.eqb data "A1" = Some ("EVERGREENLIFE/TPP", "TPP")
      /\ dict_get String.eqb names "A1" = Some "Test Surgery"
      /\ dict_get String.eqb data "GP_CODE" = None)
  /\ process_row ([("A1", ("EVERGREENLIFE/TPP", "TPP"))],
                  [("A1", "Test Surgery")])
       ["R1"; "A1"; "Renamed Surgery"; "CEGEDIM"]
     = Ok ([("A1", ("EVERGREENLIFE/TPP", "TPP"))], [("A1", "Test Surgery")]).
Proof.
  split.
  - destruct (proj2 (process_data_file_first_seen
                       (fun _ => [["Region"; "GP_CODE"; "GP_NAME"; "SUPPLIER"];
                                  ["R1"; "A1"; "Test Surgery";
                                   "EVERGREENLIFE/TPP"];
                                  ["R1"; "B2"; "Other Surgery"; "EMIS"];
                                  ["R1"; "A1"; "Renamed Surgery"; "CEGEDIM"]]))
                "tmp/2025-10/in.csv" "text"
                (mkWorld [("tmp/2025-10/in.csv", "text")] tt [])
                eq_refl
                ltac:(repeat constructor))
      as (data & names & Hrun & Hdata & Hnames).
    exists data, names. rewrite Hrun, !Hdata, Hnames. repeat split.
  - apply (proj1 (process_data_file_first_seen (machine := unit)
                    (fun _ => []))
             [("A1", ("EVERGREENLIFE/TPP", "TPP"))] [("A1", "Test Surgery")]
             ["R1"; "A1"; "Renamed Surgery"; "CEGEDIM"]);
      [unfold wide; simpl; lia | reflexivity | reflexivity].
Defined.

(** ** C5, C9: the output table *)

Lemma first_rows_not_seen (rows : list (list string)) :
  forall seen row,
    In row (first_rows seen rows) ->
    In row rows /\ existsb (String.eqb (code_of row)) seen = false.
Proof.
  induction rows as [|row0 rows IH]; intros seen row; simpl; [tauto|].
  destruct (existsb (String.eqb (code_of row0)) seen) eqn:E.
  - intros H. destruct (IH _ _ H). auto.
  - intros [<-|H]; [auto|].
    destruct (IH _ _ H) as [Hin Hseen].
    rewrite existsb_app in Hseen. apply orb_false_iff in Hseen as [Hseen _].
    auto.
Qed.

(** No code comes twice among the first rows. *)
Lemma first_rows_NoDup (rows : list (list string)) :
  forall seen, NoDup (map code_of (first_rows seen rows)).
Proof.
  induction rows as [|row0 rows IH]; intros seen; simpl; [constructor|].
  destruct (existsb (String.eqb (code_of row0)) seen); [apply IH|].
  simpl. constructor; [|apply IH].
  intros Hin. apply in_map_iff in Hin as (row & Hcode & Hin).
  apply first_rows_not_seen in Hin as [_ Hseen].
  rewrite existsb_app, Hcode in Hseen. simpl in Hseen.
  rewrite String.eqb_refl in Hseen. now rewrite orb_true_r in Hseen.
Qed.

(** Every code of the rows that was not seen before is among them. *)
Lemma first_rows_covers (rows : list (list string)) :
  forall seen row,
    In row rows -> existsb (String.eqb (code_of row)) seen = false ->
    In (code_of row) (map code_of (first_rows seen rows)).
Proof.
  induction rows as [|row0 rows IH]; intros seen row; simpl; [tauto|].
  intros Hin Hseen.
  destruct (existsb (String.eqb (code_of row0)) seen) eqn:E.
  - destruct Hin as [->|Hin]; [congruence | now apply IH].
  - simpl. destruct Hin as [->|Hin]; [now left|].
    destruct (String.eqb_spec (code_of row) (code_of row0)) as [Heq|Hne];
      [now left | right].
    apply IH; [assumption|]. rewrite existsb_app, Hseen. simpl.
    apply String.eqb_neq in Hne. now rewrite Hne.
Qed.

(** A first row is the first row of the table that bears its code. *)
Lemma first_rows_find (rows : list (list string)) :
  forall seen row,
    In row (first_rows seen rows) ->
    find (bears (code_of row)) rows = Some row.
Proof.
  induction rows as [|row0 rows IH]; intros seen row; simpl; [tauto|].
  unfold bears at 1.
  destruct (existsb (String.eqb (code_of row0)) seen) eqn:E.
  - intros Hin. destruct (first_rows_not_seen _ _ _ Hin) as [_ Hseen].
    destruct (String.eqb_spec (code_of row) (code_of row0)) as [Heq|];
      [congruence | now apply (IH seen)].
  - intros [<-|Hin]; [now rewrite String.eqb_refl|].
    destruct (first_rows_not_seen _ _ _ Hin) as [_ Hseen].
    rewrite existsb_app in Hseen. apply orb_false_iff in Hseen as [_ Hlast].
    simpl in Hlast. rewrite orb_false_r in Hlast. rewrite Hlast.
    now apply (IH (seen ++ [code_of row0])%list).
Qed.

Lemma dict_get_NoDup {V : Type} (d : dict (K := string) (V := V))
  (k : string) (v : V) :
  NoDup (dict_keys d) -> In (k, v) d -> dict_get String.eqb d k = Some v.
Proof.
  unfold dict_keys. induction d as [|[k' v'] d IH]; simpl; [tauto|].
  intros Hnd [Heq|Hin]; inversion Hnd as [|? ? Hnotin Hnd']; subst.
  - inversion Heq; subst. now rewrite String.eqb_refl.
  - destruct (String.eqb_spec k k') as [->|]; [|now apply IH].
    elim Hnotin. apply in_map_iff. now exists (k', v).
Qed.

Lemma names_of_first_rows (rows : list (list string)) (row : list string) :
  In row (first_rows [] rows) ->
  dict_get String.eqb (map name_item (first_rows [] rows)) (code_of row)
  = Some (name_of row).
Proof.
  intros Hin. apply dict_get_NoDup.
  - unfold dict_keys. rewrite map_map. apply (first_rows_NoDup rows []).
  - apply in_map_iff. now exists row.
Qed.

Section OutputTable.
Context {machine : Type}.
Variable may_create : string -> world machine -> bool.
Variable csv_reader : string -> list (list string).
Variable csv_row : list string -> string.

(** The loop of the writer: one line a row, appended to the file, as long
    as every code has its name. *)
Lemma write_items_rows (names : dict (K := string) (V := string))
  (rows : list (list string)) :
  (forall row, In row rows ->
               dict_get String.eqb names (code_of row)
               = Some (name_of row)) ->
  forall (w : world machine) (old : string),
    file_text w OUTPUT_FILE = Some old ->
    exists w',
      write_items csv_row (map data_item rows) names w = (Ok tt, w')
      /\ file_text w' OUTPUT_FILE
         = Some (old ++ concat_chunks (map csv_row (map output_row rows)))
      /\ log w' = log w.
Proof.
  induction rows as [|row rows IH]; intros Hnames w old Hold.
  - exists w. simpl. now rewrite append_nil_r.
  - destruct (IH (fun r Hr => Hnames r (or_intror Hr))
                (set_files w (dict_set String.eqb (files w) OUTPUT_FILE
                                (old ++ csv_row (output_row row))))
                (old ++ csv_row (output_row row)))
      as (w' & Hrun & Htext & Hlog).
    { unfold file_text. simpl. now rewrite dict_get_set, String.eqb_refl. }
    exists w'. split; [|split].
    + cbn [map write_items data_item]. unfold pbind, lift, dict_getitem.
      rewrite (Hnames row (or_introl eq_refl)).
      unfold file_write. unfold file_text in Hold. rewrite Hold.
      exact Hrun.
    + rewrite Htext. simpl. now rewrite append_assoc.
    + exact Hlog.
Qed.

(** The writer on the two mappings of a table. *)
Lemma write_output_file_of_table (table : list (list string))
  (data : dict (K := string) (V := string * string))
  (names : dict (K := string) (V := string)) (w : world machine) :
  process_rows 0 table ([], []) = Ok (data, names) ->
  may_create OUTPUT_FILE w = true ->
  exists w',
    write_output_file may_create csv_row data names w = (Ok tt, w')
    /\ file_text w' OUTPUT_FILE
       = Some (concat_chunks
                 (map csv_row
                    (HEADER :: map output_row (first_rows [] (tl table))))).
Proof.
  intros Hagg Hcreate.
  destruct (process_rows_shape table data names Hagg) as (_ & -> & ->).
  destruct (write_items_rows
              (map name_item (first_rows [] (tl table)))
              (first_rows [] (tl table))
              (names_of_first_rows (tl table))
              (set_files
                 (set_files w (dict_set String.eqb (files w) OUTPUT_FILE ""))
                 (dict_set String.eqb
                    (dict_set String.eqb (files w) OUTPUT_FILE "")
                    OUTPUT_FILE (csv_row HEADER)))
              (csv_row HEADER))
    as (w' & Hrun & Htext & Hlog).
  { unfold file_text. simpl. now rewrite dict_get_set, String.eqb_refl. }
  exists (logged INFO ("Written output file: " ++ OUTPUT_FILE) w').
  split.
  - unfold write_output_file, pbind, open_w. rewrite Hcreate.
    unfold file_write at 1. cbn [files set_files].
    rewrite dict_get_set, String.eqb_refl. cbn [append].
    unfold dict_items. rewrite Hrun. reflexivity.
  - unfold file_text, logged in *. cbn [files]. rewrite Htext. reflexivity.
Qed.

Lemma process_data_file_table (path : string) (w w' : world machine)
  (data : dict (K := string) (V := string * string))
  (names : dict (K := string) (V := string)) :
  process_data_file csv_reader path w = (Ok (data, names), w') ->
  exists text,
    file_text w path = Some text
    /\ process_rows 0 (csv_reader text) ([], []) = Ok (data, names).
Proof.
  rewrite process_data_file_rows.
  destruct (file_text w path) as [text|]; [|discriminate].
  intros H. exists text. split; [reflexivity | congruence].
Qed.

(** C5.  For every pair of mappings that [process_data_file] returns from a
    table, [write_output_file] (when it can open the output file) returns
    and leaves in it the header line GP Code, GP Name, Appointment Systems,
    Main System followed by one line per organization code: the lines of
    the four-column rows (code, name, raw label, main system) of the first
    rows of the codes, in the order in which the codes first appear in the
    table, each code once and every code of the table among them. *)
Theorem write_output_file_rows
  (path text : string) (w0 w1 w : world machine)
  (data : dict (K := string) (V := string * string))
  (names : dict (K := string) (V := string)) :
  file_text w0 path = Some text ->
  process_data_file csv_reader path w0 = (Ok (data, names), w1) ->
  may_create OUTPUT_FILE w = true ->
  let rows := tl (csv_reader text) in
  let firsts := first_rows [] rows in
  (exists w',
      write_output_file may_create csv_row data names w = (Ok tt, w')
      /\ file_text w' OUTPUT_FILE
         = Some (concat_chunks
                   (map csv_row (HEADER :: map output_row firsts))))
  /\ HEADER = ["GP Code"; "GP Name"; "Appointment Systems"; "Main System"]
  /\ dict_keys data = map code_of firsts
  /\ NoDup (map code_of firsts)
  /\ (forall row, In row rows -> In (code_of row) (map code_of firsts))
  /\ (forall row, In row firsts ->
                  find (bears (code_of row)) rows = Some row).
Proof.
  intros Htext Hrun Hcreate rows firsts.
  destruct (process_data_file_table path w0 w1 data names Hrun)
    as (text' & Htext' & Hagg).
  assert (text' = text) by congruence. subst text'.
  split; [now apply (write_output_file_of_table (csv_reader text))|].
  split; [reflexivity|].
  destruct (process_rows_shape _ data names Hagg) as (_ & -> & _).
  split; [unfold dict_keys; now rewrite map_map|].
  split; [apply first_rows_NoDup|].
  split; [intros row Hin; now apply first_rows_covers|].
  intros row Hin. now apply (first_rows_find rows []).
Qed.

(** C9.  The two mappings that [process_data_file] returns have the same
    keys, in the same order; so [write_output_file] on them finds the name
    of every code: it returns when it can open the output file, fails with
    the error of [open] when it cannot, and never fails with [KeyError]. *)
Theorem process_data_file_same_keys
  (path : string) (w0 w1 : world machine)
  (data : dict (K := string) (V := string * string))
  (names : dict (K := string) (V := string)) :
  process_data_file csv_reader path w0 = (Ok (data, names), w1) ->
  dict_keys data = dict_keys names
  /\ (forall code,
         dict_mem String.eqb data code = dict_mem String.eqb names code)
  /\ (forall w,
         fst (write_output_file may_create csv_row data names w)
         = if may_create OUTPUT_FILE w then Ok tt else Raise OSError)
  /\ (forall w,
         fst (write_output_file may_create csv_row data names w)
         <> Raise KeyError).
Proof.
  intros Hrun.
  destruct (process_data_file_table path w0 w1 data names Hrun)
    as (text & _ & Hagg).
  assert (Hkeys : dict_keys data = dict_keys names).
  { destruct (process_rows_shape _ data names Hagg) as (_ & -> & ->).
    unfold dict_keys. now rewrite !map_map. }
  assert (Hwrite : forall w,
             fst (write_output_file may_create csv_row data names w)
             = if may_create OUTPUT_FILE w then Ok tt else Raise OSError).
  { intros w. destruct (may_create OUTPUT_FILE w) eqn:Hcreate.
    - destruct (write_output_file_of_table _ data names w Hagg Hcreate)
        as (w' & Hw & _).
      now rewrite Hw.
    - unfold write_output_file, pbind, open_w. now rewrite Hcreate. }
  split; [exact Hkeys|]. split; [|split; [exact Hwrite|]].
  - intros code. now rewrite !dict_mem_keys, Hkeys.
  - intros w. rewrite Hwrite.
    destruct (may_create OUTPUT_FILE w); discriminate.
Qed.
End OutputTable.

Lemma write_output_file_rows_witness :
  file_text
    (snd (write_output_file (fun _ _ => true)
            (fun fields => join "," fields ++ ";")
            [("A1", ("EVERGREENLIFE/TPP", "TPP"))] [("A1", "Test Surgery")]
            (mkWorld [] tt [])))
    OUTPUT_FILE
  = Some ("GP Code,GP Name,Appointment Systems,Main System;"
          ++ "A1,Test Surgery,EVERGREENLIFE/TPP,TPP;").
Proof.
  destruct (write_output_file_rows (fun _ _ => true)
              (fun _ => [["Region"; "GP_CODE"; "GP_NAME"; "SUPPLIER"];
                         ["R1"; "A1"; "Test Surgery"; "EVERGREENLIFE/TPP"]])
              (fun fields => join "," fields ++ ";")
              "in.csv" "text"
              (mkWorld [("in.csv", "text")] tt []) _ (mkWorld [] tt [])
              [("A1", ("EVERGREENLIFE/TPP", "TPP"))] [("A1", "Test Surgery")]
              eq_refl eq_refl eq_refl)
    as ((w' & Hrun & Htext) & _).
  rewrite Hrun. exact Htext.
Defined.

Lemma process_data_file_same_keys_witness :
  dict_keys [("A1", ("EVERGREENLIFE/TPP", "TPP")); ("B2", ("EMIS", "EMIS"))]
  = dict_keys [("A1", "Test Surgery"); ("B2", "Other Surgery")]
  /\ fst (write_output_file (fun _ _ => true)
            (fun fields => join "," fields ++ ";")
            [("A1", ("EVERGREENLIFE/TPP", "TPP")); ("B2", ("EMIS", "EMIS"))]
            [("A1", "Test Surgery"); ("B2", "Other Surgery")]
            (mkWorld [] tt []))
     <> Raise KeyError.
Proof.
  destruct (process_data_file_same_keys (fun _ _ => true)
              (fun _ => [["Region"; "GP_CODE"; "GP_NAME"; "SUPPLIER"];
                         ["R1"; "A1"; "Test Surgery"; "EVERGREENLIFE/TPP"];
                         ["R1"; "B2"; "Other Surgery"; "EMIS"];
                         ["R1"; "A1"; "Renamed Surgery"; "CEGEDIM"]])
              (fun fields => join "," fields ++ ";")
              "in.csv"
              (mkWorld [("in.csv", "text")] tt []) _
              [("A1", ("EVERGREENLIFE/TPP", "TPP")); ("B2", ("EMIS", "EMIS"))]
              [("A1", "Test Surgery"); ("B2", "Other Surgery")]
              eq_refl)
    as (Hkeys & _ & _ & Hnever).
  split; [exact Hkeys | exact (Hnever (mkWorld [] tt []))].
Defined.

(** ** C8: the pipeline *)

Section Pipeline.
Context {machine : Type}.
Variable builtin_message : exn -> string.
Variable requests_get : option string -> prog machine response.
Variable select_download_cards : string -> list card.
Variable may_create : string -> world machine -> bool.
Variable os_path_exists : string -> world machine -> bool.
Variable os_makedirs : string -> prog machine unit.
Variable zip_extractall : string -> string -> prog machine unit.
Variable shutil_rmtree : string -> prog machine unit.
Variable csv_reader : string -> list (list string).
Variable csv_row : list string -> string.
Variable get_data_file_path : string -> prog machine string.

Local Abbreviation download :=
  (download_gpad_zip_file builtin_message requests_get
     select_download_cards may_create).
Local Abbreviation unzip :=
  (unzip_gpad_zip_file os_path_exists os_makedirs zip_extractall).
Local Abbreviation process := (process_data_file csv_reader).
Local Abbreviation write := (write_output_file may_create csv_row).
Local Abbreviation cleanup := (remove_tmp_files shutil_rmtree).
Local Abbreviation run :=
  (main builtin_message requests_get select_download_cards may_create
     os_path_exists os_makedirs zip_extractall shutil_rmtree csv_reader
     csv_row get_data_file_path).
Local Abbreviation message := (str builtin_message).

(** C8.  In [main], whichever of the download, the unzipping, the
    processing or the writing raises first, [main] raises the same error
    and leaves the world that the failing stage left with one more line in
    the log, the error line of that stage: nothing after the failing stage
    runs, whatever the later stages and the cleanup would do, and the files
    are those the failing stage left.  An error of the path lookup between
    unzipping and processing is raised on as it is.  [remove_tmp_files]
    runs exactly when the five calls before it have returned, in the world
    that the writing of the output file left. *)
Theorem main_fail_fast
  (month : string) (zip_file : option string) (w : world machine) :
  (forall e w1,
      download month zip_file w = (Raise e, w1) ->
      run month zip_file w
      = (Raise e,
         logged ERROR ("Error downloading zip file: " ++ message e) w1))
  /\ (forall w1 e w2,
         download month zip_file w = (Ok tt, w1) ->
         unzip month w1 = (Raise e, w2) ->
         run month zip_file w
         = (Raise e,
            logged ERROR ("Error unzipping zip file: " ++ message e) w2))
  /\ (forall w1 w2 e w3,
         download month zip_file w = (Ok tt, w1) ->
         unzip month w1 = (Ok tt, w2) ->
         get_data_file_path month w2 = (Raise e, w3) ->
         run month zip_file w = (Raise e, w3))
  /\ (forall w1 w2 input w3 e w4,
         download month zip_file w = (Ok tt, w1) ->
         unzip month w1 = (Ok tt, w2) ->
         get_data_file_path month w2 = (Ok input, w3) ->
         process input w3 = (Raise e, w4) ->
         run month zip_file w
         = (Raise e,
            logged ERROR ("Error processing data file: " ++ message e) w4))
  /\ (forall w1 w2 input w3 data names w4 e w5,
         download month zip_file w = (Ok tt, w1) ->
         unzip month w1 = (Ok tt, w2) ->
         get_data_file_path month w2 = (Ok input, w3) ->
         process input w3 = (Ok (data, names), w4) ->
         write data names w4 = (Raise e, w5) ->
         run month zip_file w
         = (Raise e,
            logged ERROR ("Error writing output file: " ++ message e) w5))
  /\ (forall w1 w2 input w3 data names w4 w5,
         download month zip_file w = (Ok tt, w1) ->
         unzip month w1 = (Ok tt, w2) ->
         get_data_file_path month w2 = (Ok input, w3) ->
         process input w3 = (Ok (data, names), w4) ->
         write data names w4 = (Ok tt, w5) ->
         run month zip_file w
         = match cleanup month w5 with
           | (Ok _, w6) =>
               (Ok tt,
                logged INFO ("Completed processing data for " ++ month) w6)
           | (Raise e, w6) =>
               (Raise e,
                logged ERROR
                  ("Error removing temporary files: " ++ message e) w6)
           end)
  /\ (forall lvl msg (w' : world machine),
         files (logged lvl msg w') = files w'
         /\ rest (logged lvl msg w') = rest w').
Proof.
  unfold main, pbind, try_except, log_and_reraise, pbind, logger_error,
    logger_info, logger, raise, logged.
  repeat split.
  - intros e w1 H1. now rewrite H1.
  - intros w1 e w2 H1 H2. now rewrite H1, H2.
  - intros w1 w2 e w3 H1 H2 H3. now rewrite H1, H2, H3.
  - intros w1 w2 input w3 e w4 H1 H2 H3 H4. now rewrite H1, H2, H3, H4.
  - intros w1 w2 input w3 data names w4 e w5 H1 H2 H3 H4 H5.
    now rewrite H1, H2, H3, H4, H5.
  - intros w1 w2 input w3 data names w4 w5 H1 H2 H3 H4 H5.
    rewrite H1, H2, H3, H4, H5.
    destruct (cleanup month w5) as [[[]|e] w6]; reflexivity.
Qed.
End Pipeline.

(** A run in which the archive is fetched and then found not to be a zip
    file: the error of the unzipping comes out of [main], it is logged last,
    and the archive is still in [tmp]. *)
Lemma main_fail_fast_witness :
  let outcome :=
    main (fun _ => "error")
      (fun _ w => (Ok (mkResponse 200 "not-a-zip"), w))
      (fun _ => []) (fun _ _ => true) (fun _ _ => false)
      (fun _ w => (Ok tt, w))
      (fun _ _ w => (Raise (Exception "File is not a zip file"), w))
      (fun _ w => (Ok tt, w))
      (fun _ => []) (fun _ => "")
      (fun month w => (Ok ("tmp/" ++ month ++ "/in.csv"), w))
      "2025-10" (Some "https://files.example/annex1.zip")
      (mkWorld [] tt []) in
  fst outcome = Raise (Exception "File is not a zip file")
  /\ last (log (snd outcome)) (INFO, "")
     = (ERROR, "Error unzipping zip file: File is not a zip file")
  /\ file_text (snd outcome) "tmp/2025-10.zip" = Some "not-a-zipnot-a-zip".
Proof.
  intros outcome. subst outcome.
  match goal with
  | |- context [main ?bm ?rg ?sel ?mc ?ex ?mk ?zx ?rm ?rd ?row ?gp ?m ?z ?w0] =>
      pose proof
        (proj1 (proj2 (main_fail_fast bm rg sel mc ex mk zx rm rd row gp
                         m z w0))
           (snd (download_gpad_zip_file bm rg sel mc m z w0))
           (Exception "File is not a zip file")
           (snd (unzip_gpad_zip_file ex mk zx m
                   (snd (download_gpad_zip_file bm rg sel mc m z w0))))
           eq_refl eq_refl) as Hrun
  end.
  rewrite Hrun. repeat split.
Defined.

(** * Further properties of the code *)

(** ** The classifier on arbitrary labels *)

Lemma split_tokens_sep_free (sep : ascii) (s : string) :
  Forall (fun t => has_char sep t = false) (split sep s).
Proof.
  induction s as [|c s IH]; simpl.
  - repeat constructor.
  - destruct (Ascii.eqb c sep) eqn:E.
    + constructor; [reflexivity | exact IH].
    + destruct (split sep s) as [|t ts]; [repeat constructor; simpl;
                                           now rewrite E|].
      inversion IH; subst. constructor; [simpl; now rewrite E | assumption].
Qed.

(** What the classifier returns, read off the tokens. *)
Lemma get_main_system_from_value_cases (value : string) :
  match split "/" value with
  | [] => False
  | [t] => get_main_system_from_value value = Ok t
  | t0 :: t1 :: _ =>
      get_main_system_from_value value
      = Ok (if String.eqb t0 "EVERGREENLIFE" then t1 else t0)
  end.
Proof.
  unfold get_main_system_from_value.
  pose proof (split_not_nil "/" value) as Hne.
  destruct (split "/" value) as [|t0 [|t1 more]]; [contradiction | reflexivity |].
  cbn [List.length Nat.eqb getitem nth_error bind].
  destruct (String.eqb t0 "EVERGREENLIFE"); [reflexivity|].
  destruct (String.eqb t1 "EVERGREENLIFE"); reflexivity.
Qed.

Lemma main_system_of_token (value : string) :
  In (main_system_of value) (split "/" value).
Proof.
  pose proof (get_main_system_from_value_cases value) as Hcases.
  unfold main_system_of.
  destruct (split "/" value) as [|t0 [|t1 more]]; [contradiction | |];
    rewrite Hcases; [now left|].
  destruct (String.eqb t0 "EVERGREENLIFE"); simpl; auto.
Qed.

Lemma main_system_of_slash_free (value : string) :
  slash_free (main_system_of value).
Proof.
  pose proof (split_tokens_sep_free "/" value) as Hfree.
  rewrite Forall_forall in Hfree. apply Hfree, main_system_of_token.
Qed.

(** X1.  On every string, [get_main_system_from_value] returns (it never
    raises, although it indexes the token list), and what it returns is one
    of the slash-delimited tokens of the input, so it holds no slash. *)
Theorem get_main_system_from_value_is_token (value : string) :
  exists main_system,
    get_main_system_from_value value = Ok main_system
    /\ In main_system (split "/" value)
    /\ slash_free main_system.
Proof.
  exists (main_system_of value). split; [|split].
  - apply get_main_system_from_value_total.
  - apply main_system_of_token.
  - apply main_system_of_slash_free.
Qed.

(** X2.  Classifying is idempotent: the main system of a label, given to the
    classifier as a label, comes back as it is. *)
Theorem get_main_system_from_value_idempotent (value : string) :
  exists main_system,
    get_main_system_from_value value = Ok main_system
    /\ get_main_system_from_value main_system = Ok main_system.
Proof.
  exists (main_system_of value).
  split; [apply get_main_system_from_value_total|].
  pose proof (get_main_system_from_value_cases (main_system_of value))
    as Hcases.
  now rewrite (split_token "/" _ (main_system_of_slash_free value)) in Hcases.
Qed.

(** X3.  On a label of two or more tokens the classifier reports the
    sentinel EVERGREENLIFE only when the first two tokens are both the
    sentinel: a reseller wrapping another system is never the main system. *)
Theorem get_main_system_from_value_sentinel
  (value t0 t1 : string) (more : list string) :
  split "/" value = t0 :: t1 :: more ->
  get_main_system_from_value value = Ok SENTINEL ->
  t0 = SENTINEL /\ t1 = SENTINEL.
Proof.
  intros Hsplit Hrun.
  pose proof (get_main_system_from_value_cases value) as Hcases.
  rewrite Hsplit, Hrun in Hcases. unfold SENTINEL in *.
  destruct (String.eqb_spec t0 "EVERGREENLIFE") as [->|Hne];
    inversion Hcases; subst; [split; reflexivity | congruence].
Qed.

Lemma get_main_system_from_value_sentinel_witness :
  "EVERGREENLIFE" = SENTINEL /\ "EVERGREENLIFE" = SENTINEL.
Proof.
  exact (get_main_system_from_value_sentinel
           "EVERGREENLIFE/EVERGREENLIFE/TPP"
           "EVERGREENLIFE" "EVERGREENLIFE" ["TPP"] eq_refl eq_refl).
Defined.

(** ** Month numbers *)






(** ** The files of a month: errors and paths *)


(** X5.  [get_data_file_paths] on a month reference that does not decompose
    raises the error of the decomposition whatever the directory holds, and
    an error of the directory listing comes out as it is. *)
Theorem get_data_file_paths_errors (unzip_dir iso_month : string) :
  (forall e,
      get_month_and_year_from_iso_month iso_month = Raise e ->
      (e = ValueError \/ e = KeyError)
      /\ forall os_listdir,
          get_data_file_paths os_listdir unzip_dir iso_month = Raise e)
  /\ (forall my e os_listdir,
         get_month_and_year_from_iso_month iso_month = Ok my ->
         os_listdir unzip_dir = Raise e ->
         get_data_file_paths os_listdir unzip_dir iso_month = Raise e).
Proof.
  split.
  - intros e He. split.
    + unfold get_month_and_year_from_iso_month in He.
      destruct (split "-" iso_month) as [|year [|month [|x l]]];
        try (left; congruence).
      unfold month_to_name in He.
      destruct (Py.int month) as [n|e'] eqn:Hint; cbn [bind] in He.
      * unfold dict_getitem in He.
        destruct (dict_get Z.eqb month_table n); cbn [bind] in He;
          [discriminate|].
        right. congruence.
      * left. rewrite (int_raises_ValueError month e' Hint) in He. congruence.
    + intros os_listdir. unfold get_data_file_paths. now rewrite He.
  - intros [month year] e os_listdir Hmy Hls.
    unfold get_data_file_paths. rewrite Hmy. cbn [bind]. now rewrite Hls.
Qed.

Lemma get_data_file_paths_errors_witness :
  get_data_file_paths (fun _ => Ok ["Practice_Oct_25.csv"]) "tmp/2025-13"
    "2025-13" = Raise KeyError
  /\ get_data_file_paths (fun _ => Raise OSError) "tmp/2025-10" "2025-10"
     = Raise OSError.
Proof.
  split.
  - exact (proj2 (proj1 (get_data_file_paths_errors "tmp/2025-13" "2025-13")
                    KeyError eq_refl) _).
  - exact (proj2 (get_data_file_paths_errors "tmp/2025-10" "2025-10")
             ("october", "2025") OSError _ eq_refl eq_refl).
Defined.



(** ** The download link: malformed cards *)

(** X7.  Link resolution stops with [AttributeError] at the first card that
    has no title, and at a card whose title has both markers but which has
    no link, when the cards before it have titles lacking a marker: the cards
    after it, matching or not, are not looked at. *)
Theorem get_download_link_from_response_malformed
  (select_download_cards : string -> list card) (r : response)
  (before : list card) (c : card) (after : list card) :
  select_download_cards (content r) = (before ++ c :: after)%list ->
  Forall unmarked before ->
  find_p c = None
  \/ (exists title, find_p c = Some title /\ annex_csv_title title
                    /\ find_a c = None) ->
  get_download_link_from_response select_download_cards r
  = Raise AttributeError.
Proof.
  intros Hcards Hbefore Hbad. unfold get_download_link_from_response.
  rewrite Hcards, (scan_downloads_unmarked before _ Hbefore). simpl.
  destruct Hbad as [Hp | (title & Hp & Hmark & Ha)]; rewrite Hp;
    [reflexivity|].
  apply marker_test_iff in Hmark. now rewrite Hmark, Ha.
Qed.

Lemma get_download_link_from_response_malformed_witness :
  get_download_link_from_response
    (fun _ => [mkCard (Some "Summary (PDF)") (Some (Some "/s.pdf"));
               mkCard None (Some (Some "/x.zip"));
               mkCard (Some "Annex 1 (CSV)") (Some (Some "/annex1.zip"))])
    (mkResponse 200 "<html>")
  = Raise AttributeError.
Proof.
  apply (get_download_link_from_response_malformed _ _
           [mkCard (Some "Summary (PDF)") (Some (Some "/s.pdf"))]
           (mkCard None (Some (Some "/x.zip")))
           [mkCard (Some "Annex 1 (CSV)") (Some (Some "/annex1.zip"))]);
    [reflexivity | | now left].
  repeat constructor. eexists. split; [reflexivity|].
  intros H. apply marker_test_iff in H. discriminate H.
Defined.

(** ** The archive fetch: failures and the page route *)

Section Download.
Context {machine : Type}.
Variable builtin_message : exn -> string.
Variable requests_get : option string -> prog machine response.
Variable select_download_cards : string -> list card.
Variable may_create : string -> world machine -> bool.

Local Abbreviation download :=
  (download_gpad_zip_file builtin_message requests_get
     select_download_cards may_create).

Lemma raise_for_status_ok (r : response) (w : world machine) :
  status_ok r -> raise_for_status r w = (Ok tt, w).
Proof.
  intros Hs. unfold raise_for_status, status_ok in *.
  replace ((400 <=? status_code r)%Z && (status_code r <? 600)%Z) with false;
    [reflexivity|].
  symmetry. apply andb_false_iff. rewrite Z.leb_gt, Z.ltb_ge. lia.
Qed.

Lemma raise_for_status_error (r : response) (w : world machine) :
  ~ status_ok r -> raise_for_status r w = (Raise HTTPError, w).
Proof.
  intros Hs. unfold raise_for_status, status_ok in *.
  replace ((400 <=? status_code r)%Z && (status_code r <? 600)%Z) with true;
    [reflexivity|].
  symmetry. apply andb_true_iff. rewrite Z.leb_le, Z.ltb_lt. lia.
Qed.

(** X8.  On a month reference that does not decompose,
    [download_gpad_zip_file] raises the error of the decomposition at once,
    with or without a supplied link: nothing is logged, requested or
    written. *)
Theorem download_gpad_zip_file_invalid_month
  (iso_month : string) (zip_file_path : option string) (e : exn)
  (w : world machine) :
  get_month_and_year_from_iso_month iso_month = Raise e ->
  download iso_month zip_file_path w = (Raise e, w).
Proof.
  intros He. unfold download_gpad_zip_file, pbind, lift. now rewrite He.
Qed.

(** X9.  When the archive request answers with a status from 400 to 599,
    [download_gpad_zip_file] raises [HTTPError] before it opens the archive
    file: the files are as they were and the log has the two lines of the
    supplied link and of the download. *)
Theorem download_gpad_zip_file_http_error
  (iso_month link : string) (r : response) (w : world machine) :
  (exists my, get_month_and_year_from_iso_month iso_month = Ok my) ->
  (forall w', requests_get (Some link) w' = (Ok r, w')) ->
  ~ status_ok r ->
  download iso_month (Some link) w
  = (Raise HTTPError,
     logged INFO ("Downloading zip file from " ++ link)
       (logged INFO
          ("Skipping finding download link and using provided zip file path: "
           ++ link) w)).
Proof.
  intros [[month year] Hmy] Hget Hstatus.
  unfold download_gpad_zip_file. unfold pbind, lift. rewrite Hmy.
  cbn [logger_info logger ret]. rewrite Hget.
  now rewrite (raise_for_status_error r _ Hstatus).
Qed.

(** X10.  Without a supplied link, when the page of the month is fetched and
    link resolution raises an error, [download_gpad_zip_file] raises an
    [Exception] whose message is [Error getting download link: ] followed by
    the text of that error; the archive is not requested and no file is
    written. *)
Theorem download_gpad_zip_file_no_link
  (iso_month month year : string) (page : response) (e : exn)
  (w : world machine) :
  get_month_and_year_from_iso_month iso_month = Ok (month, year) ->
  (forall w',
      requests_get (Some (BASE_URL ++ "/" ++ month ++ "-" ++ year)) w'
      = (Ok page, w')) ->
  status_ok page ->
  get_download_link_from_response select_download_cards page = Raise e ->
  download iso_month None w
  = (Raise (Exception ("Error getting download link: "
                       ++ str builtin_message e)),
     logged INFO ("Finding download link for " ++ iso_month ++ " from "
                  ++ BASE_URL ++ "/" ++ month ++ "-" ++ year) w).
Proof.
  intros Hmy Hget Hstatus Hlink.
  unfold download_gpad_zip_file. unfold pbind, lift. rewrite Hmy.
  cbn [logger_info logger]. rewrite Hget.
  rewrite (raise_for_status_ok page _ Hstatus), Hlink. reflexivity.
Qed.

(** X11.  Without a supplied link, [download_gpad_zip_file] fetches the page
    at the base address followed by a slash, the month name, a dash and the
    year, resolves the link on it and requests that link; when both requests
    pass and the archive file can be opened it returns, the archive file
    holds the body written twice, and the log has gained the three lines of
    the search, the download and the completion. *)
Theorem download_gpad_zip_file_from_page
  (iso_month month year : string) (page : response)
  (link : option string) (r : response) (w : world machine) :
  get_month_and_year_from_iso_month iso_month = Ok (month, year) ->
  (forall w',
      requests_get (Some (BASE_URL ++ "/" ++ month ++ "-" ++ year)) w'
      = (Ok page, w')) ->
  status_ok page ->
  get_download_link_from_response select_download_cards page = Ok link ->
  (forall w', requests_get link w' = (Ok r, w')) ->
  status_ok r ->
  (forall w', may_create (zip_path iso_month) w' = true) ->
  exists w',
    download iso_month None w = (Ok tt, w')
    /\ file_text w' (zip_path iso_month) = Some (content r ++ content r)
    /\ log w'
       = List.app (log w)
           [(INFO, "Finding download link for " ++ iso_month ++ " from "
                   ++ BASE_URL ++ "/" ++ month ++ "-" ++ year);
            (INFO, "Downloading zip file from "
                   ++ match link with Some l => l | None => "None" end);
            (INFO, "Downloaded zip file to tmp/" ++ iso_month ++ ".zip")].
Proof.
  intros Hmy Hpage Hpstatus Hlink Hget Hstatus Hcreate.
  unfold zip_path in *.
  unfold download_gpad_zip_file. unfold pbind, lift. rewrite Hmy.
  cbn [logger_info logger]. rewrite Hpage.
  rewrite (raise_for_status_ok page _ Hpstatus), Hlink. cbn [ret].
  rewrite Hget, (raise_for_status_ok r _ Hstatus).
  unfold open_w. rewrite Hcreate.
  match goal with
  | |- context [write_chunks ?p ?c ?w0] =>
      destruct (write_chunks_text p c w0 "") as (w1 & Hrun & Htext & Hlog)
  end.
  { unfold file_text. simpl. now rewrite dict_get_set, String.eqb_refl. }
  rewrite Hrun. unfold file_write. unfold file_text in Htext. rewrite Htext.
  eexists. split; [reflexivity|]. split.
  - unfold file_text. simpl. rewrite dict_get_set, String.eqb_refl.
    unfold iter_content. rewrite iter_slices_concat; [reflexivity|].
    unfold CHUNK_SIZE. lia.
  - cbn [log set_files]. rewrite Hlog. cbn [log set_files].
    now rewrite <- !app_assoc.
Qed.
End Download.

Lemma download_gpad_zip_file_invalid_month_witness :
  download_gpad_zip_file (fun _ => "")
    (fun _ w => (Ok (mkResponse 200 "PK"), w)) (fun _ => [])
    (fun _ _ => true) "2025-00" None (mkWorld [] tt [])
  = (Raise KeyError, mkWorld [] tt []).
Proof.
  exact (download_gpad_zip_file_invalid_month (fun _ => "")
           (fun _ w => (Ok (mkResponse 200 "PK"), w)) (fun _ => [])
           (fun _ _ => true) "2025-00" None KeyError (mkWorld [] tt [])
           eq_refl).
Defined.

Lemma download_gpad_zip_file_http_error_witness :
  files
    (snd (download_gpad_zip_file (fun _ => "")
            (fun _ w => (Ok (mkResponse 404 "Not Found"), w)) (fun _ => [])
            (fun _ _ => true) "2025-10" (Some "https://files.example/a.zip")
            (mkWorld [("tmp/2025-10.zip", "old")] tt [])))
  = [("tmp/2025-10.zip", "old")].
Proof.
  rewrite (download_gpad_zip_file_http_error (fun _ => "")
             (fun _ w => (Ok (mkResponse 404 "Not Found"), w)) (fun _ => [])
             (fun _ _ => true) "2025-10" "https://files.example/a.zip"
             (mkResponse 404 "Not Found")
             (mkWorld [("tmp/2025-10.zip", "old")] tt [])
             (ex_intro _ ("october", "2025") eq_refl)
             (fun _ => eq_refl)
             ltac:(unfold status_ok; simpl; lia)).
  reflexivity.
Defined.

Lemma download_gpad_zip_file_no_link_witness :
  fst (download_gpad_zip_file (fun _ => "")
         (fun _ w => (Ok (mkResponse 200 "<html>"), w)) (fun _ => [])
         (fun _ _ => true) "2025-10" None (mkWorld [] tt []))
  = Raise (Exception "Error getting download link: No downloads found.").
Proof.
  rewrite (download_gpad_zip_file_no_link (fun _ => "")
             (fun _ w => (Ok (mkResponse 200 "<html>"), w)) (fun _ => [])
             (fun _ _ => true) "2025-10" "october" "2025"
             (mkResponse 200 "<html>") (Exception "No downloads found.")
             (mkWorld [] tt [])
             eq_refl (fun _ => eq_refl) (or_introl eq_refl) eq_refl).
  reflexivity.
Defined.

Lemma download_gpad_zip_file_from_page_witness :
  exists w',
    download_gpad_zip_file (fun _ => "")
      (fun url w =>
         match url with
         | Some "/annex1.zip" => (Ok (mkResponse 200 "PK"), w)
         | _ => (Ok (mkResponse 200 "<html>"), w)
         end)
      (fun _ => [mkCard (Some "Annex 1 (CSV)") (Some (Some "/annex1.zip"))])
      (fun _ _ => true) "2025-10" None (mkWorld [] tt [])
    = (Ok tt, w')
    /\ file_text w' "tmp/2025-10.zip" = Some "PKPK"
    /\ List.length (log w') = 3.
Proof.
  destruct (download_gpad_zip_file_from_page (fun _ => "")
              (fun url w =>
                 match url with
                 | Some "/annex1.zip" => (Ok (mkResponse 200 "PK"), w)
                 | _ => (Ok (mkResponse 200 "<html>"), w)
                 end)
              (fun _ => [mkCard (Some "Annex 1 (CSV)")
                           (Some (Some "/annex1.zip"))])
              (fun _ _ => true) "2025-10" "october" "2025"
              (mkResponse 200 "<html>") (Some "/annex1.zip")
              (mkResponse 200 "PK") (mkWorld [] tt [])
              eq_refl (fun _ => eq_refl) (or_introl eq_refl) eq_refl
              (fun _ => eq_refl) (or_introl eq_refl) (fun _ => eq_refl))
    as (w' & Hrun & Htext & Hlog).
  exists w'. split; [exact Hrun|]. split; [exact Htext|].
  now rewrite Hlog.
Defined.

(** ** The aggregation: outcomes, repeated codes, provenance *)

Lemma wideb_wide (row : list string) : wideb row = true <-> wide row.
Proof. unfold wideb, wide. apply Nat.leb_le. Qed.

Lemma forallb_wideb (rows : list (list string)) :
  (forallb wideb rows = true -> Forall wide rows)
  /\ (forallb wideb rows = false -> Exists (fun row => ~ wide row) rows).
Proof.
  induction rows as [|row rows [IHt IHf]]; simpl.
  - split; [constructor | discriminate].
  - destruct (wideb row) eqn:E; simpl.
    + apply wideb_wide in E. split; intros H.
      * constructor; auto.
      * apply Exists_cons_tl. auto.
    + split; [discriminate|]. intros _. apply Exists_cons_hd.
      intros Hw. apply wideb_wide in Hw. congruence.
Qed.

Lemma process_rows_outcome (table : list (list string)) :
  process_rows 0 table ([], [])
  = if forallb wideb (tl table)
    then Ok (map data_item (first_rows [] (tl table)),
             map name_item (first_rows [] (tl table)))
    else Raise IndexError.
Proof.
  destruct table as [|header rows]; [reflexivity|].
  cbn [process_rows Nat.eqb tl].
  destruct (forallb_wideb rows) as [Ht Hf].
  destruct (forallb wideb rows).
  - now rewrite (process_rows_first_rows rows (Ht eq_refl)).
  - now apply process_rows_short_row, Hf.
Qed.

Section AggregationOutcome.
Context {machine : Type}.
Variable csv_reader : string -> list (list string).

End AggregationOutcome.

Lemma first_rows_app (rows later : list (list string)) :
  forall seen,
    first_rows seen (rows ++ later)%list
    = (first_rows seen rows
       ++ first_rows (seen ++ map code_of (first_rows seen rows)) later)%list.
Proof.
  induction rows as [|row rows IH]; intros seen; simpl.
  - now rewrite app_nil_r.
  - destruct (existsb (String.eqb (code_of row)) seen); [apply IH|].
    simpl. rewrite IH, <- app_assoc. reflexivity.
Qed.

Lemma first_rows_all_seen (rows : list (list string)) (seen : list string) :
  (forall row, In row rows -> In (code_of row) seen) ->
  first_rows seen rows = [].
Proof.
  induction rows as [|row rows IH]; intros Hall; simpl; [reflexivity|].
  replace (existsb (String.eqb (code_of row)) seen) with true.
  - apply IH. intros r Hr. apply Hall. now right.
  - symmetry. apply existsb_exists. exists (code_of row).
    split; [apply Hall; now left | apply String.eqb_refl].
Qed.

(** X13.  Rows appended to a table change nothing when each of them has its
    columns and bears a code that a row of the table (after row 0) already
    bears: the loop returns the same two mappings, values and order. *)
Theorem process_rows_repeated_codes
  (header : list string) (rows extra : list (list string))
  (agg : aggregate) :
  process_rows 0 (header :: rows) ([], []) = Ok agg ->
  Forall wide extra ->
  (forall row, In row extra ->
               exists first, In first rows /\ code_of first = code_of row) ->
  process_rows 0 (header :: rows ++ extra) ([], []) = Ok agg.
Proof.
  intros Hrun Hwide Hcodes.
  rewrite process_rows_outcome in Hrun.
  change (header :: rows ++ extra)%list with (header :: (rows ++ extra))%list.
  rewrite process_rows_outcome. cbn [tl] in *.
  destruct (forallb wideb rows) eqn:Erows; [|discriminate].
  rewrite forallb_app, Erows.
  replace (forallb wideb extra) with true.
  - rewrite first_rows_app, (first_rows_all_seen extra), app_nil_r;
      [exact Hrun|].
    intros row Hrow. destruct (Hcodes row Hrow) as (first & Hin & <-).
    simpl. now apply first_rows_covers.
  - symmetry. apply forallb_forall. intros row Hrow. apply wideb_wide.
    rewrite Forall_forall in Hwide. auto.
Qed.

Lemma process_rows_repeated_codes_witness :
  process_rows 0
    [["Region"; "GP_CODE"; "GP_NAME"; "SUPPLIER"];
     ["R1"; "A1"; "Test Surgery"; "EVERGREENLIFE/TPP"];
     ["R2"; "A1"; "Test Surgery (branch)"; "EMIS"]] ([], [])
  = Ok ([("A1", ("EVERGREENLIFE/TPP", "TPP"))], [("A1", "Test Surgery")]).
Proof.
  apply (process_rows_repeated_codes
           ["Region"; "GP_CODE"; "GP_NAME"; "SUPPLIER"]
           [["R1"; "A1"; "Test Surgery"; "EVERGREENLIFE/TPP"]]
           [["R2"; "A1"; "Test Surgery (branch)"; "EMIS"]]).
  - reflexivity.
  - repeat constructor.
  - intros row [<-|[]]. eexists. split; [now left | reflexivity].
Defined.

(** X14.  Every record of the data mapping comes from a row of the table:
    a code mapped to a label and a main system is borne by a row after row 0
    that has this label, the main system is what the classifier returns on
    the label, and the name mapping has the name of that same row. *)
Theorem process_rows_provenance
  (table : list (list string))
  (data : dict (K := string) (V := string * string))
  (names : dict (K := string) (V := string))
  (code label main_system : string) :
  process_rows 0 table ([], []) = Ok (data, names) ->
  dict_get String.eqb data code = Some (label, main_system) ->
  get_main_system_from_value label = Ok main_system
  /\ exists row,
      In row (tl table)
      /\ code_of row = code /\ label_of row = label
      /\ dict_get String.eqb names code = Some (name_of row).
Proof.
  intros Hrun Hget.
  destruct (process_rows_shape table data names Hrun) as (_ & -> & ->).
  rewrite (dict_get_first_rows data_item (fun _ => eq_refl)) in Hget.
  cbn [existsb] in Hget.
  destruct (find (bears code) (tl table)) as [row|] eqn:Efind;
    [|discriminate].
  simpl in Hget. inversion Hget; subst. clear Hget.
  split; [apply get_main_system_from_value_total|].
  exists row. destruct (find_some _ _ Efind) as [Hin Hbears].
  unfold bears in Hbears. apply String.eqb_eq in Hbears.
  repeat split; auto.
  rewrite (dict_get_first_rows name_item (fun _ => eq_refl)).
  cbn [existsb]. now rewrite Efind.
Qed.

Lemma process_rows_provenance_witness :
  get_main_system_from_value "EVERGREENLIFE/TPP" = Ok "TPP"
  /\ exists row,
      In row [["R1"; "A1"; "Test Surgery"; "EVERGREENLIFE/TPP"];
              ["R1"; "A1"; "Renamed Surgery"; "CEGEDIM"]]
      /\ code_of row = "A1" /\ label_of row = "EVERGREENLIFE/TPP"
      /\ dict_get String.eqb [("A1", "Test Surgery")] "A1"
         = Some (name_of row).
Proof.
  exact (process_rows_provenance
           [["Region"; "GP_CODE"; "GP_NAME"; "SUPPLIER"];
            ["R1"; "A1"; "Test Surgery"; "EVERGREENLIFE/TPP"];
            ["R1"; "A1"; "Renamed Surgery"; "CEGEDIM"]]
           [("A1", ("EVERGREENLIFE/TPP", "TPP"))] [("A1", "Test Surgery")]
           "A1" "EVERGREENLIFE/TPP" "TPP" eq_refl eq_refl).
Defined.

(** ** The writer: a missing name, and the files it leaves alone *)

Lemma dict_get_remove_other {V : Type} (d : dict (K := string) (V := V))
  (k c : string) :
  c <> k ->
  dict_get String.eqb (dict_remove String.eqb d k) c = dict_get String.eqb d c.
Proof.
  intros Hne. induction d as [|[k' v'] d IH]; simpl; [reflexivity|].
  destruct (String.eqb_spec k k') as [->|Hk]; simpl.
  - destruct (String.eqb_spec c k'); [contradiction | reflexivity].
  - now rewrite IH.
Qed.

Lemma dict_get_remove_same {V : Type} (d : dict (K := string) (V := V))
  (k : string) :
  NoDup (dict_keys d) ->
  dict_get String.eqb (dict_remove String.eqb d k) k = None.
Proof.
  unfold dict_keys. induction d as [|[k' v'] d IH]; simpl; [reflexivity|].
  intros Hnd. inversion Hnd as [|? ? Hnotin Hnd']; subst.
  destruct (String.eqb_spec k k') as [->|Hk]; simpl.
  - destruct (dict_get String.eqb d k') as [v|] eqn:E; [|reflexivity].
    elim Hnotin. clear -E. induction d as [|[k v0] d IH]; [discriminate|].
    simpl in *. destruct (String.eqb_spec k' k) as [->|]; [now left|].
    right. now apply IH.
  - apply String.eqb_neq in Hk. rewrite Hk. now apply IH.
Qed.

Section Writer.
Context {machine : Type}.
Variable may_create : string -> world machine -> bool.
Variable csv_row : list string -> string.



(** The loop of the writer up to the first code that has no name. *)
Lemma write_items_prefix (names : dict (K := string) (V := string))
  (named : list (string * (string * string))) :
  Forall (fun item => dict_mem String.eqb names (fst item) = true) named ->
  forall later (w : world machine) (old : string),
    file_text w OUTPUT_FILE = Some old ->
    exists w1,
      write_items csv_row (named ++ later)%list names w
      = write_items csv_row later names w1
      /\ file_text w1 OUTPUT_FILE
         = Some (old ++ concat_chunks
                          (map (fun item => csv_row (item_row names item))
                               named))
      /\ log w1 = log w.
Proof.
  induction 1 as [|[code [label main_system]] named Hmem _ IH];
    intros later w old Hold.
  - exists w. simpl. now rewrite append_nil_r.
  - unfold dict_mem in Hmem. cbn [fst] in Hmem.
    destruct (dict_get String.eqb names code) as [name|] eqn:Ename;
      [|discriminate].
    destruct (IH later
                (set_files w (dict_set String.eqb (files w) OUTPUT_FILE
                                (old ++ csv_row [code; name; label;
                                                 main_system])))
                (old ++ csv_row [code; name; label; main_system]))
      as (w1 & Hrun & Htext & Hlog).
    { unfold file_text. simpl. now rewrite dict_get_set, String.eqb_refl. }
    exists w1. split; [|split].
    + cbn [app write_items]. unfold pbind at 1, lift, dict_getitem.
      rewrite Ename. unfold pbind at 1, file_write.
      unfold file_text in Hold. rewrite Hold. exact Hrun.
    + rewrite Htext. cbn [map concat_chunks fold_right].
      unfold item_row. cbn [fst snd]. rewrite Ename.
      now rewrite append_assoc.
    + exact Hlog.
Qed.

(** X15.  When the data mapping holds a code that the name mapping lacks,
    [write_output_file] raises [KeyError] at that code and the output file
    is left with the header line and the lines of the codes before it; the
    line that reports the written file is not logged. *)
Theorem write_output_file_missing_name
  (names : dict (K := string) (V := string))
  (named : list (string * (string * string)))
  (code label main_system : string)
  (later : list (string * (string * string))) (w : world machine) :
  may_create OUTPUT_FILE w = true ->
  Forall (fun item => dict_mem String.eqb names (fst item) = true) named ->
  dict_get String.eqb names code = None ->
  exists w',
    write_output_file may_create csv_row
      (named ++ (code, (label, main_system)) :: later)%list names w
    = (Raise KeyError, w')
    /\ file_text w' OUTPUT_FILE
       = Some (concat_chunks
                 (csv_row HEADER
                  :: map (fun item => csv_row (item_row names item)) named))
    /\ log w' = log w.
Proof.
  intros Hcreate Hnamed Hmissing.
  destruct (write_items_prefix names named Hnamed
              ((code, (label, main_system)) :: later)
              (set_files
                 (set_files w (dict_set String.eqb (files w) OUTPUT_FILE ""))
                 (dict_set String.eqb
                    (dict_set String.eqb (files w) OUTPUT_FILE "")
                    OUTPUT_FILE (csv_row HEADER)))
              (csv_row HEADER))
    as (w1 & Hrun & Htext & Hlog).
  { unfold file_text. simpl. now rewrite dict_get_set, String.eqb_refl. }
  exists w1. split; [|split; assumption].
  unfold write_output_file, pbind, open_w. rewrite Hcreate.
  unfold file_write at 1. cbn [files set_files].
  rewrite dict_get_set, String.eqb_refl. cbn [append].
  unfold dict_items. rewrite Hrun.
  cbn [write_items]. unfold pbind, lift, dict_getitem. now rewrite Hmissing.
Qed.

End Writer.

Lemma write_output_file_missing_name_witness :
  exists w',
    write_output_file (fun _ _ => true)
      (fun fields => join "," fields ++ ";")
      [("A1", ("EMIS", "EMIS")); ("B2", ("TPP", "TPP"));
       ("C3", ("EMIS", "EMIS"))]
      [("A1", "First Surgery"); ("C3", "Third Surgery")]
      (mkWorld [] tt [])
    = (Raise KeyError, w')
    /\ file_text w' OUTPUT_FILE
       = Some ("GP Code,GP Name,Appointment Systems,Main System;"
               ++ "A1,First Surgery,EMIS,EMIS;")
    /\ log w' = [].
Proof.
  exact (write_output_file_missing_name (fun _ _ => true)
           (fun fields => join "," fields ++ ";")
           [("A1", "First Surgery"); ("C3", "Third Surgery")]
           [("A1", ("EMIS", "EMIS"))] "B2" "TPP" "TPP"
           [("C3", ("EMIS", "EMIS"))] (mkWorld [] tt [])
           eq_refl ltac:(repeat constructor) eq_refl).
Defined.

(** ** The cleanup *)

Section Cleanup.
Context {machine : Type}.
Variable shutil_rmtree : string -> prog machine unit.

(** The archive of a month taken out of the files of a world *)
Lemma path_unlink_present (path text : string) (w : world machine) :
  file_text w path = Some text ->
  exists w1,
    path_unlink path w = (Ok tt, w1)
    /\ log w1 = log w /\ rest w1 = rest w
    /\ (forall p, p <> path -> file_text w1 p = file_text w p)
    /\ (NoDup (dict_keys (files w)) -> file_text w1 path = None).
Proof.
  intros Htext. unfold path_unlink, dict_mem. unfold file_text in Htext.
  rewrite Htext. eexists. split; [reflexivity|].
  unfold file_text. cbn [log rest files set_files]. repeat split.
  - intros p Hp. now apply dict_get_remove_other.
  - apply dict_get_remove_same.
Qed.

(** X17.  [remove_tmp_files] deletes the archive first and the extraction
    directory second.  When the archive is not there it raises [OSError] and
    leaves everything, the directory included, as it was.  When the archive
    is there it is taken out of the files, no other file is touched by that,
    and only then [shutil.rmtree] runs on [tmp/<month>]: if that fails its
    error comes out with the archive already gone and no line logged; if it
    passes one line is logged. *)
Theorem remove_tmp_files_steps (month : string) (w : world machine) :
  (file_text w (zip_path month) = None ->
   remove_tmp_files shutil_rmtree month w = (Raise OSError, w))
  /\ (forall text,
         file_text w (zip_path month) = Some text ->
         exists w1,
           log w1 = log w /\ rest w1 = rest w
           /\ (forall p, p <> zip_path month ->
                         file_text w1 p = file_text w p)
           /\ (NoDup (dict_keys (files w)) ->
               file_text w1 (zip_path month) = None)
           /\ remove_tmp_files shutil_rmtree month w
              = match shutil_rmtree (unzip_path month) w1 with
                | (Ok _, w2) =>
                    (Ok tt,
                     logged INFO ("Removed temporary files for " ++ month) w2)
                | (Raise e, w2) => (Raise e, w2)
                end).
Proof.
  unfold zip_path, unzip_path. split.
  - intros Hnone. unfold remove_tmp_files, pbind, path_unlink, dict_mem.
    unfold file_text in Hnone. now rewrite Hnone.
  - intros text Htext.
    destruct (path_unlink_present _ text w Htext)
      as (w1 & Hrun & Hlog & Hrest & Hothers & Hgone).
    exists w1. repeat split; try assumption.
    unfold remove_tmp_files, pbind. rewrite Hrun.
    destruct (shutil_rmtree ("tmp/" ++ month) w1) as [[[]|e] w2]; reflexivity.
Qed.
End Cleanup.

Lemma remove_tmp_files_steps_witness :
  remove_tmp_files (fun _ w => (Ok tt, w)) "2025-10"
    (mkWorld [("data/gp_suppliers.csv", "table")] tt [])
  = (Raise OSError, mkWorld [("data/gp_suppliers.csv", "table")] tt [])
  /\ exists w1,
      log w1 = []
      /\ file_text w1 "data/gp_suppliers.csv" = Some "table"
      /\ file_text w1 "tmp/2025-10.zip" = None
      /\ remove_tmp_files (fun _ w => (Raise OSError, w)) "2025-10"
           (mkWorld [("tmp/2025-10.zip", "PK");
                     ("data/gp_suppliers.csv", "table")] tt [])
         = (Raise OSError, w1).
Proof.
  split.
  - exact (proj1 (remove_tmp_files_steps (fun _ w => (Ok tt, w)) "2025-10"
                    (mkWorld [("data/gp_suppliers.csv", "table")] tt []))
             eq_refl).
  - destruct (proj2 (remove_tmp_files_steps (fun _ w => (Raise OSError, w))
                       "2025-10"
                       (mkWorld [("tmp/2025-10.zip", "PK");
                                 ("data/gp_suppliers.csv", "table")] tt []))
                "PK" eq_refl)
      as (w1 & Hlog & _ & Hothers & Hgone & Hrun).
    exists w1. split; [exact Hlog|]. split; [|split].
    + rewrite Hothers; [reflexivity | discriminate].
    + apply Hgone. repeat constructor; simpl; intuition discriminate.
    + exact Hrun.
Defined.

(** ** A whole run *)

Section WholeRun.
Context {machine : Type}.
Variable builtin_message : exn -> string.
Variable requests_get : option string -> prog machine response.
Variable select_download_cards : string -> list card.
Variable may_create : string -> world machine -> bool.
Variable os_path_exists : string -> world machine -> bool.
Variable os_makedirs : string -> prog machine unit.
Variable zip_extractall : string -> string -> prog machine unit.
Variable shutil_rmtree : string -> prog machine unit.
Variable csv_reader : string -> list (list string).
Variable csv_row : list string -> string.
Variable get_data_file_path : string -> prog machine string.




End WholeRun.


(** ** The month when none is given *)

Lemma string_of_uint_dash_free (d : Decimal.uint) :
  has_char "-" (NilEmpty.string_of_uint d) = false.
Proof. induction d; simpl; auto. Qed.

Lemma str_of_nat_dash_free (n : nat) : has_char "-" (str_of_nat n) = false.
Proof.
  unfold str_of_nat, NilZero.string_of_uint.
  destruct (Nat.to_uint n) eqn:E; try reflexivity;
    rewrite <- E; apply string_of_uint_dash_free.
Qed.

(** X19.  The month that the command line takes when none is given is always
    a reference that the program accepts: from the year and month of the
    current date (after January of year 1) it is the reference of the
    previous calendar month, December of the year before when the current
    month is January, and [get_month_and_year_from_iso_month] returns that
    month's name and that year on it. *)
Theorem default_month_valid (now_year now_month : nat) :
  1 <= now_year -> 1 <= now_month <= 12 ->
  2 <= now_year \/ 2 <= now_month ->
  let year := if (now_month =? 1)%nat then now_year - 1 else now_year in
  let m := if (now_month =? 1)%nat then 12 else now_month - 1 in
  default_month now_year now_month = Ok (strftime_Y_m year m)
  /\ get_month_and_year_from_iso_month (strftime_Y_m year m)
     = Ok (nth (m - 1) ENGLISH_MONTHS "", str_of_nat year).
Proof.
  intros Hy Hm Hnot year m.
  assert (Hprev : minus_one_month now_year now_month = Ok (year, m)).
  { unfold minus_one_month. subst year m. cbv zeta.
    destruct (Nat.eqb_spec now_month 1) as [Heq|Hne];
      repeat match goal with
             | |- context [(?a <? ?b)%Z] =>
                 destruct (Z.ltb_spec a b); try lia
             end;
      cbv iota beta; apply f_equal; apply f_equal2; lia. }
  split.
  - unfold default_month. now rewrite Hprev.
  - assert (Hrange : 1 <= m <= 12)
      by (subst m; destruct (Nat.eqb_spec now_month 1); lia).
    clearbody year m. unfold strftime_Y_m.
    assert (H : m = 1 \/ m = 2 \/ m = 3 \/ m = 4 \/ m = 5 \/ m = 6 \/ m = 7
                \/ m = 8 \/ m = 9 \/ m = 10 \/ m = 11 \/ m = 12) by lia.
    repeat (destruct H as [->|H];
            [rewrite get_month_and_year_two_parts
               by (apply str_of_nat_dash_free || reflexivity);
             reflexivity|]).
    subst. rewrite get_month_and_year_two_parts
      by (apply str_of_nat_dash_free || reflexivity).
    reflexivity.
Qed.

Lemma default_month_valid_witness :
  default_month 2026 1 = Ok "2025-12"
  /\ get_month_and_year_from_iso_month "2025-12" = Ok ("december", "2025").
Proof.
  exact (default_month_valid 2026 1 ltac:(lia) ltac:(lia) ltac:(lia)).
Defined.

(** ** A run on a month reference that does not decompose *)

Section InvalidMonth.
Context {machine : Type}.
Variable builtin_message : exn -> string.
Variable requests_get : option string -> prog machine response.
Variable select_download_cards : string -> list card.
Variable may_create : string -> world machine -> bool.
Variable os_path_exists : string -> world machine -> bool.
Variable os_makedirs : string -> prog machine unit.
Variable zip_extractall : string -> string -> prog machine unit.
Variable shutil_rmtree : string -> prog machine unit.
Variable csv_reader : string -> list (list string).
Variable csv_row : list string -> string.
Variable get_data_file_path : string -> prog machine string.

(** X20.  On a month reference that does not decompose, [main] stops in the
    download stage before any request: it raises the [ValueError] or
    [KeyError] of the decomposition, and the world is as it was but for the
    one error line [Error downloading zip file: ...] in the log. *)
Theorem main_invalid_month
  (month : string) (zip_file : option string) (e : exn)
  (w : world machine) :
  get_month_and_year_from_iso_month month = Raise e ->
  (e = ValueError \/ e = KeyError)
  /\ main builtin_message requests_get select_download_cards may_create
       os_path_exists os_makedirs zip_extractall shutil_rmtree csv_reader
       csv_row get_data_file_path month zip_file w
     = (Raise e,
        logged ERROR
          ("Error downloading zip file: " ++ builtin_message e) w).
Proof.
  intros He.
  assert (Hkind : e = ValueError \/ e = KeyError).
  { unfold get_month_and_year_from_iso_month in He.
    destruct (split "-" month) as [|year [|m [|x l]]];
      try (left; congruence).
    unfold month_to_name in He.
    destruct (Py.int m) as [n|e'] eqn:Hint; cbn [bind] in He.
    - unfold dict_getitem in He.
      destruct (dict_get Z.eqb month_table n); cbn [bind] in He;
        [discriminate|].
      right. congruence.
    - left. rewrite (int_raises_ValueError m e' Hint) in He. congruence. }
  split; [exact Hkind|].
  unfold main, pbind at 1, try_except at 1.
  unfold download_gpad_zip_file, pbind at 1, lift. rewrite He.
  unfold log_and_reraise, pbind, logger_error, logger, raise, logged.
  destruct Hkind as [->| ->]; reflexivity.
Qed.
End InvalidMonth.

Lemma main_invalid_month_witness :
  main (fun _ => "invalid literal for int()")
    (fun _ w => (Ok (mkResponse 200 "PK"), w))
    (fun _ => []) (fun _ _ => true) (fun _ _ => false)
    (fun _ w => (Ok tt, w)) (fun _ _ w => (Ok tt, w))
    (fun _ w => (Ok tt, w)) (fun _ => []) (fun _ => "")
    (fun month w => (Ok month, w))
    "2025-October" None (mkWorld [] tt [])
  = (Raise ValueError,
     mkWorld [] tt
       [(ERROR, "Error downloading zip file: invalid literal for int()")]).
Proof.
  exact (proj2 (main_invalid_month (fun _ => "invalid literal for int()")
                  (fun _ w => (Ok (mkResponse 200 "PK"), w))
                  (fun _ => []) (fun _ _ => true) (fun _ _ => false)
                  (fun _ w => (Ok tt, w)) (fun _ _ w => (Ok tt, w))
                  (fun _ w => (Ok tt, w)) (fun _ => []) (fun _ => "")
                  (fun month w => (Ok month, w))
                  "2025-October" None ValueError (mkWorld [] tt [])
                  eq_refl)).
Defined.

